(** * Flood & Weather Insights backend: risk aggregation, advisories, endpoints

    A shallow embedding of [main.py] (the FastAPI backend) and proofs of the
    properties its specification states about it.

    Numbers.  The program computes on Python floats.  They are modelled as
    exact rationals ([Q]): comparison with a threshold, the choice of a
    maximum and list slicing do not depend on binary rounding, and the
    constants the program compares against (50.0, 50.0 * 0.6, 40, 35, 15, 8)
    are the same numbers in both readings ([Binary64.thresholds_binary64]
    checks the computed one).  The rounding error of binary64 addition
    inside [sum], NaN and the infinities are not modelled.  Equality of
    numbers is [Qeq] ([==]).

    Exceptions.  A Python call either returns or raises; this is the
    [result] type below, with [HTTPException] carrying the status code the
    web framework turns into the HTTP response status.

    Providers.  The two HTTP calls are modelled by the response each
    provider gives to a request: a status code and the parsed JSON body. *)

From Stdlib Require Import List String Ascii Bool ZArith QArith Qround Lia Lqa.
From Stdlib Require Import Permutation.
From Stdlib Require Floats.
Import ListNotations.

Local Open Scope Q_scope.

(** ** Exceptions *)

Inductive exn : Type :=
| HTTPException (status_code : Z) (detail : string)
| ValueError (msg : string).

Inductive result (A : Type) : Type :=
| Ok (a : A)
| Raise (e : exn).

Arguments Ok {A} a.
Arguments Raise {A} e.

Definition bind {A B : Type} (c : result A) (k : A -> result B) : result B :=
  match c with
  | Ok a => k a
  | Raise e => Raise e
  end.

Notation "x <- c ;; k" := (bind c (fun x => k))
  (at level 61, c at next level, right associativity).

(** The status code of the HTTP response for an outcome: 200 for a value,
    the exception's code for [HTTPException], 500 for any other exception. *)
Definition http_status {A : Type} (r : result A) : Z :=
  match r with
  | Ok _ => 200%Z
  | Raise (HTTPException c _) => c
  | Raise (ValueError _) => 500%Z
  end.

(** ** The Python built-ins the program calls *)

Module Py.

(** [x >= y] and [x > y] on numbers. *)
Definition ge (x y : Q) : bool := Qle_bool y x.
Definition gt (x y : Q) : bool := negb (Qle_bool x y).

(** [len(l)], a Python int. *)
Definition len {A : Type} (l : list A) : Z := Z.of_nat (List.length l).

(** [sum(l)]: left to right, from 0. *)
Definition sum (l : list Q) : Q := fold_left Qplus l 0.

(** [max(l)]: raises [ValueError] on an empty list; otherwise scans left to
    right and replaces the candidate only by a strictly greater item. *)
Definition max (l : list Q) : result Q :=
  match l with
  | [] => Raise (ValueError "max() arg is an empty sequence")
  | x :: xs => Ok (fold_left (fun m y => if gt y m then y else m) xs x)
  end.

(** Nearest integer, ties to the even one. *)
Definition round_half_even (q : Q) : Z :=
  let f := Qfloor q in
  match Qcompare (q - inject_Z f) (1 # 2) with
  | Lt => f
  | Gt => (f + 1)%Z
  | Eq => if Z.even f then f else (f + 1)%Z
  end.

Definition pow10 (n : nat) : positive := Nat.iter n (Pos.mul 10) 1%positive.

(** [round(x, ndigits)] for [ndigits >= 0]: the multiple of [10^-ndigits]
    nearest to [x], ties to the even multiple. *)
Definition round (x : Q) (ndigits : nat) : Q :=
  Qmake (round_half_even (x * inject_Z (Zpos (pow10 ndigits)))) (pow10 ndigits).

(** [l[start:]]: a negative [start] counts from the end, and the index is
    then clamped to [0 .. len(l)]. *)
Definition slice_from {A : Type} (l : list A) (start : Z) : list A :=
  let n := len l in
  let i := if (start <? 0)%Z then Z.max (start + n) 0 else Z.min start n in
  skipn (Z.to_nat i) l.

(** [sep.join(l)]. *)
Definition join (sep : string) (l : list string) : string := String.concat sep l.

(** Truth value of a list or a string: empty is false. *)
Definition truthy {A : Type} (l : list A) : bool :=
  match l with [] => false | _ :: _ => true end.

Definition truthy_str (s : string) : bool :=
  match s with EmptyString => false | String _ _ => true end.

(** [s.replace(a, b)] for single characters [a] and [b]. *)
Fixpoint replace_char (a b : ascii) (s : string) : string :=
  match s with
  | EmptyString => EmptyString
  | String c s' => String (if Ascii.eqb c a then b else c) (replace_char a b s')
  end.

End Py.

(** ** Risk aggregation *)

(** [compute_rolling(values, hours)]: "Sum of last n hours (rolling window)". *)
Definition compute_rolling (values : list Q) (hours : Z) : Q :=
  if negb (Py.truthy values) then 0
  else if (Py.len values <? hours)%Z then Py.round (Py.sum values) 2
  else Py.round (Py.sum (Py.slice_from values (- hours))) 2.

(** The dictionary [summarize_risks] returns. *)
Record RiskSummary : Type := {
  flood : string;
  heat : string;
  storm : string;
  max_temp : Q;
  max_wind : Q
}.

Definition flood_threshold : Q := 50.

(** [summarize_risks(rolling_24, temps_24, winds_24)]. *)
Definition summarize_risks (rolling_24 : Q) (temps_24 winds_24 : list Q)
  : result RiskSummary :=
  let flood :=
    if Py.ge rolling_24 flood_threshold then "High"%string
    else if Py.ge rolling_24 (flood_threshold * 0.6) then "Medium"%string
    else "Low"%string in
  max_temp <- (if Py.truthy temps_24 then Py.max temps_24 else Ok (-999)) ;;
  let heat :=
    if Py.ge max_temp 40 then "High"%string
    else if Py.ge max_temp 35 then "Medium"%string
    else "Low"%string in
  max_wind <- (if Py.truthy winds_24 then Py.max winds_24 else Ok 0) ;;
  let storm :=
    if Py.ge max_wind 15 then "High"%string
    else if Py.ge max_wind 8 then "Medium"%string
    else "Low"%string in
  Ok {| flood := flood; heat := heat; storm := storm;
        max_temp := Py.round max_temp 1; max_wind := Py.round max_wind 1 |}.

(** ** Advisory composer *)

(** The three clause lists [advisory_en], [advisory_hi], [advisory_mr] that
    [build_bilingual_advisories] grows by [append]. *)
Record Clauses : Type := {
  clauses_en : list string;
  clauses_hi : list string;
  clauses_mr : list string
}.

Definition no_clauses : Clauses :=
  {| clauses_en := []; clauses_hi := []; clauses_mr := [] |}.

Definition append_en (s : string) (c : Clauses) : Clauses :=
  {| clauses_en := clauses_en c ++ [s]; clauses_hi := clauses_hi c;
     clauses_mr := clauses_mr c |}.

Definition append_hi (s : string) (c : Clauses) : Clauses :=
  {| clauses_en := clauses_en c; clauses_hi := clauses_hi c ++ [s];
     clauses_mr := clauses_mr c |}.

Definition append_mr (s : string) (c : Clauses) : Clauses :=
  {| clauses_en := clauses_en c; clauses_hi := clauses_hi c;
     clauses_mr := clauses_mr c ++ [s] |}.

(** One clause in each of the three languages. *)
Definition append_all (e h m : string) (c : Clauses) : Clauses :=
  append_mr m (append_hi h (append_en e c)).

Local Open Scope string_scope.

(** The [if flood == ...] statement. *)
Definition flood_clauses (flood : string) (c : Clauses) : Clauses :=
  if flood =? "High" then
    append_all "High flood risk — move livestock/equipment to higher ground."
               "उच्च बाढ़ जोखिम — पशुधन और उपकरण सुरक्षित स्थान पर ले जाएं।"
               "उच्च पूर धोका — जनावरे व उपकरणे उंच जागी हलवा." c
  else if flood =? "Medium" then
    append_all "Medium flood risk — inspect low-lying fields and secure valuables."
               "मध्यम बाढ़ जोखिम — निचले क्षेत्रों की जाँच करें और सामान सुरक्षित रखें।"
               "मध्यम पूर धोका — खालच्या शेतांची तपासणी करा व वस्तू सुरक्षित ठेवा." c
  else
    append_en "Flood risk is low — normal conditions." c.

(** The [if heat == ...] statement. *)
Definition heat_clauses (heat : string) (c : Clauses) : Clauses :=
  if heat =? "High" then
    append_all "High heat — avoid field work during midday; stay hydrated."
               "उच्च तापमान — दोपहर के दौरान खेत का काम न करें; पानी पिएं।"
               "उच्च ताप — दुपारच्या वेळी काम टाळा; पाणी प्या." c
  else if heat =? "Medium" then
    append_all "Moderate heat — take precautions during hot hours."
               "मध्यम तापमान — गर्मी के समय सावधानी रखें।"
               "मध्यम ताप — गरम वेळेत खबरदारी घ्या." c
  else c.

(** The [if storm == ...] statement. *)
Definition storm_clauses (storm : string) (c : Clauses) : Clauses :=
  if storm =? "High" then
    append_all "High wind risk — secure shade nets and loose equipment."
               "उच्च हवा जोखिम — नेट और ढीले उपकरण सुरक्षित रखें।"
               "उच्च वारा धोका — जाळी आणि ढीले उपकरण सुरक्षित ठेवा." c
  else if storm =? "Medium" then
    append_en "Moderate winds — be cautious while working at heights." c
  else c.

(** The clause lists as they stand when the [return] is reached. *)
Definition advisory_clauses (risks : RiskSummary) : Clauses :=
  storm_clauses (storm risks)
    (heat_clauses (heat risks)
       (flood_clauses (flood risks) no_clauses)).

(** The dictionary [build_bilingual_advisories] returns. *)
Record AdvisoryBundle : Type := {
  advisory_en : string;
  advisory_hi : string;
  advisory_mr : string
}.

(** The [return] statement. *)
Definition assemble (c : Clauses) : AdvisoryBundle :=
  {| advisory_en := Py.join " " (clauses_en c);
     advisory_hi := if Py.truthy (clauses_hi c) then Py.join " " (clauses_hi c)
                    else Py.join " " (clauses_en c);
     advisory_mr := if Py.truthy (clauses_mr c) then Py.join " " (clauses_mr c)
                    else Py.join " " (clauses_en c) |}.

(** [build_bilingual_advisories(risks)]. *)
Definition build_bilingual_advisories (risks : RiskSummary) : AdvisoryBundle :=
  assemble (advisory_clauses risks).

Local Close Scope string_scope.

(** ** Upstream providers and the orchestrator *)

(** One entry of the geocoding provider's ["results"]. *)
Record GeoResult : Type := {
  res_name : string;
  res_country : string;
  res_latitude : Q;
  res_longitude : Q
}.

(** The geocoding provider's response: status code and the ["results"] of
    its JSON body (an absent key reads as no result). *)
Record GeoResponse : Type := {
  geo_status_code : Z;
  geo_results : list GeoResult
}.

(** The ["hourly"] object of the forecast provider's JSON body, its numeric
    arrays already converted by [float(x)]; an absent key reads as an empty
    list. *)
Record Hourly : Type := {
  h_time : list string;
  h_temperature_2m : list Q;
  h_precipitation : list Q;
  h_relativehumidity_2m : list Q;
  h_windspeed_10m : list Q
}.

Record WeatherResponse : Type := {
  w_status_code : Z;
  w_hourly : Hourly
}.

(** The dictionary [geocode_city] returns. *)
Record Coordinate : Type := {
  name : string;
  country : string;
  lat : Q;
  lon : Q
}.

(** The dictionary [get_full_forecast] returns. *)
Record ForecastPayload : Type := {
  location : string;
  p_lat : Q;
  p_lon : Q;
  times : list string;
  temperature : list Q;
  precip : list Q;
  humidity : list Q;
  wind : list Q;
  rolling_24 : Q;
  rolling_72 : Q;
  precip_std : Q;
  risk : RiskSummary;
  p_advisory_en : string;
  p_advisory_hi : string;
  p_advisory_mr : string
}.

(** The table [export_csv] writes and the file response it returns. *)
Record DataFrame : Type := {
  time : list string;
  temperature_C : list Q;
  precip_mm : list Q;
  humidity_pct : list Q;
  wind_m_s : list Q
}.

Record FileResponse : Type := {
  content : DataFrame;
  filename : string
}.

(** [pd.DataFrame({...})]: the columns must have one length. *)
Definition make_DataFrame (t : list string) (te pr hu wi : list Q) : result DataFrame :=
  let n := List.length t in
  if (Nat.eqb (List.length te) n && Nat.eqb (List.length pr) n
      && Nat.eqb (List.length hu) n && Nat.eqb (List.length wi) n)%bool
  then Ok {| time := t; temperature_C := te; precip_mm := pr;
             humidity_pct := hu; wind_m_s := wi |}
  else Raise (ValueError "All arrays must be of the same length").

Section Backend.

(** The two external providers, as the response each gives to a request,
    and [statistics.pstdev]. *)
Variable geocoding_api : string -> GeoResponse.
Variable forecast_api : Q -> Q -> WeatherResponse.
Variable pstdev : list Q -> Q.

(** [geocode_city(city)]. *)
Definition geocode_city (city : string) : result Coordinate :=
  let r := geocoding_api city in
  if negb (geo_status_code r =? 200)%Z then
    Raise (HTTPException 502 "Geocoding API error")
  else
    match geo_results r with
    | [] => Raise (HTTPException 404 "Location not found")
    | res :: _ =>
        Ok {| name := res_name res; country := res_country res;
              lat := res_latitude res; lon := res_longitude res |}
    end.

(** [fetch_weather(lat, lon)]. *)
Definition fetch_weather (lat lon : Q) : result WeatherResponse :=
  let r := forecast_api lat lon in
  if negb (w_status_code r =? 200)%Z then
    Raise (HTTPException 502 "Forecast API error")
  else Ok r.

(** [compute_std(values)]. *)
Definition compute_std (values : list Q) : Q :=
  if negb (Py.truthy values) then 0 else pstdev values.

(** [get_full_forecast(city)]. *)
Definition get_full_forecast (city : string) : result ForecastPayload :=
  g <- geocode_city city ;;
  let pretty := (name g ++ ", " ++ country g)%string in
  w <- fetch_weather (lat g) (lon g) ;;
  let hourly := w_hourly w in
  let times := h_time hourly in
  let temps := h_temperature_2m hourly in
  let precip := h_precipitation hourly in
  let humidity := h_relativehumidity_2m hourly in
  let wind := h_windspeed_10m hourly in
  let rolling_24 := compute_rolling precip 24 in
  let rolling_72 := compute_rolling precip 72 in
  let std_precip := compute_std precip in
  let temps_24 :=
    if (24 <=? Py.len temps)%Z then Py.slice_from temps (-24) else temps in
  let winds_24 :=
    if (24 <=? Py.len wind)%Z then Py.slice_from wind (-24) else wind in
  risk_summary <- summarize_risks rolling_24 temps_24 winds_24 ;;
  let advisories := build_bilingual_advisories risk_summary in
  Ok {| location := pretty; p_lat := lat g; p_lon := lon g;
        times := times; temperature := temps; precip := precip;
        humidity := humidity; wind := wind;
        rolling_24 := rolling_24; rolling_72 := rolling_72;
        precip_std := Py.round std_precip 2;
        risk := risk_summary;
        p_advisory_en := advisory_en advisories;
        p_advisory_hi := advisory_hi advisories;
        p_advisory_mr := advisory_mr advisories |}.

(** [GET /city_forecast]. *)
Definition city_forecast (city : string) : result ForecastPayload :=
  if negb (Py.truthy_str city) then
    Raise (HTTPException 400 "city param required")
  else get_full_forecast city.

(** [GET /export_csv]. *)
Definition export_csv (city : string) : result FileResponse :=
  data <- get_full_forecast city ;;
  df <- make_DataFrame (times data) (temperature data) (precip data)
                       (humidity data) (wind data) ;;
  Ok {| content := df;
        filename := (Py.replace_char " " "_" city ++ "_weather.csv")%string |}.

End Backend.

(** ** Observations used in the statements *)

(** The ordered levels of the specification and the strings that name them. *)
Inductive Level : Type := Low | Medium | High.

Definition level_of_string (s : string) : option Level :=
  if (s =? "Low")%string then Some Low
  else if (s =? "Medium")%string then Some Medium
  else if (s =? "High")%string then Some High
  else None.

Definition level_rank (l : Level) : nat :=
  match l with Low => 0 | Medium => 1 | High => 2 end.

Definition level_le (a b : Level) : Prop := (level_rank a <= level_rank b)%nat.

Definition is_level (s : string) : Prop :=
  s = "Low"%string \/ s = "Medium"%string \/ s = "High"%string.

(** The level [summarize_risks] assigns to one dimension. *)
Definition flood_level (rolling_24 : Q) (temps_24 winds_24 : list Q) : result string :=
  r <- summarize_risks rolling_24 temps_24 winds_24 ;; Ok (flood r).

Definition heat_level (rolling_24 : Q) (temps_24 winds_24 : list Q) : result string :=
  r <- summarize_risks rolling_24 temps_24 winds_24 ;; Ok (heat r).

Definition storm_level (rolling_24 : Q) (temps_24 winds_24 : list Q) : result string :=
  r <- summarize_risks rolling_24 temps_24 winds_24 ;; Ok (storm r).

(** [m] is the maximum of the window [l]: attained in [l] and an upper bound
    of it. *)
Definition is_maximum (l : list Q) (m : Q) : Prop :=
  (exists x, In x l /\ x == m) /\ (forall y, In y l -> y <= m).

(** ** Definitions used by the statements and proofs *)

(** The specification's threshold table for one dimension: inclusive lower
    bounds [high] and [medium], tried from the top, the first that holds
    decides. *)
Definition classify (x high medium : Q) : string :=
  if Py.ge x high then "High"%string
  else if Py.ge x medium then "Medium"%string
  else "Low"%string.

(** The last [h] entries of [l] (all of [l] when it has fewer). *)
Definition last_entries {A : Type} (h : nat) (l : list A) : list A :=
  skipn (List.length l - h) l.

(** The rolling sum as the specification words it: 0.0 for an empty history,
    the rounded sum of all entries for a history shorter than the window,
    otherwise the rounded sum of the last [h] entries. *)
Definition rollingSum_spec (v : list Q) (h : Z) : Q :=
  match v with
  | [] => 0
  | _ :: _ =>
      if (Py.len v <? h)%Z then Py.round (Py.sum v) 2
      else Py.round (Py.sum (last_entries (Z.to_nat h) v)) 2
  end.

(** Every clause of a list is a non-empty sentence. *)
Definition sentences (l : list string) : Prop :=
  Forall (fun s => s <> EmptyString) l.

(** The invariant of the three clause lists. *)
Definition clauses_ok (c : Clauses) : Prop :=
  sentences (clauses_en c) /\ sentences (clauses_hi c) /\ sentences (clauses_mr c).

(** [c'] has the clauses of [c] and possibly more, in each language. *)
Definition extends (c c' : Clauses) : Prop :=
  (exists l, clauses_en c' = clauses_en c ++ l) /\
  (exists l, clauses_hi c' = clauses_hi c ++ l) /\
  (exists l, clauses_mr c' = clauses_mr c ++ l).

(** A geocoder that knows one city, and a forecast provider that answers
    with 30 hourly entries. *)
Definition demo_location : GeoResult :=
  {| res_name := "Pune"; res_country := "India";
     res_latitude := 18.52; res_longitude := 73.86 |}.

Definition demo_hourly : Hourly :=
  {| h_time := List.repeat "2024-07-01T00:00"%string 30;
     h_temperature_2m := List.repeat 30 6 ++ [41] ++ List.repeat 33 23;
     h_precipitation := [5; 0; 0; 0; 0; 0] ++ [20; 35] ++ List.repeat 0 22;
     h_relativehumidity_2m := List.repeat 80 30;
     h_windspeed_10m := List.repeat 9 6 ++ List.repeat 3 23 ++ [5] |}.

Definition demo_geocoding_api (city : string) : GeoResponse :=
  if (city =? "Pune")%string
  then {| geo_status_code := 200; geo_results := [demo_location] |}
  else {| geo_status_code := 200; geo_results := [] |}.

Definition demo_forecast_api (lat lon : Q) : WeatherResponse :=
  {| w_status_code := 200; w_hourly := demo_hourly |}.

Definition demo_pstdev (values : list Q) : Q := 0.

(** ** The dashboard ([app.py]) *)

Set Warnings "-register-all".

(** A JSON value as [resp.json()] returns it; an object is a [dict]. *)
Inductive Json : Type :=
| JNull
| JBool (b : bool)
| JNum (x : Q)
| JStr (s : string)
| JArr (items : list Json)
| JObj (members : list (string * Json)).

Set Warnings "register-all".

(** [d.get(key)]; of two members with one key the parser keeps the later. *)
Fixpoint dict_lookup (d : list (string * Json)) (key : string) : option Json :=
  match d with
  | [] => None
  | (k, v) :: d' =>
      match dict_lookup d' key with
      | Some v' => Some v'
      | None => if (k =? key)%string then Some v else None
      end
  end.

(** [d.get(key, default)]. *)
Definition dict_get (d : list (string * Json)) (key : string) (default : Json) : Json :=
  match dict_lookup d key with
  | Some v => v
  | None => default
  end.

(** The dictionary [summarize_risks] returns, with its keys, as JSON. *)
Definition risk_json (r : RiskSummary) : Json :=
  JObj [("flood"%string, JStr (flood r));
        ("heat"%string, JStr (heat r));
        ("storm"%string, JStr (storm r));
        ("max_temp"%string, JNum (max_temp r));
        ("max_wind"%string, JNum (max_wind r))].

(** The dictionary [get_full_forecast] returns, with its keys, as JSON: the
    body of a successful [/city_forecast] response. *)
Definition payload_members (p : ForecastPayload) : list (string * Json) :=
  [("location"%string, JStr (location p));
   ("lat"%string, JNum (p_lat p));
   ("lon"%string, JNum (p_lon p));
   ("times"%string, JArr (map JStr (times p)));
   ("temperature"%string, JArr (map JNum (temperature p)));
   ("precip"%string, JArr (map JNum (precip p)));
   ("humidity"%string, JArr (map JNum (humidity p)));
   ("wind"%string, JArr (map JNum (wind p)));
   ("rolling_24"%string, JNum (rolling_24 p));
   ("rolling_72"%string, JNum (rolling_72 p));
   ("precip_std"%string, JNum (precip_std p));
   ("risk"%string, risk_json (risk p));
   ("advisory_en"%string, JStr (p_advisory_en p));
   ("advisory_hi"%string, JStr (p_advisory_hi p));
   ("advisory_mr"%string, JStr (p_advisory_mr p))].

(** What [requests.get] gives: it raises a [RequestException] with text [e],
    or returns a response with a status code, the text [raise_for_status]
    would put in its [HTTPError], and the parsed body. *)
Inductive Transport : Type :=
| RequestFailed (e : string)
| Replied (status_code : Z) (http_error : string) (body : Json).

(** The outcome of the dashboard's [get_forecast]. *)
Inductive Fetched : Type :=
| Data (data : Json)
| RuntimeError (msg : string).

(** [resp.raise_for_status()] raises for 4xx and 5xx. *)
Definition raises_for_status (status_code : Z) : bool :=
  ((400 <=? status_code)%Z && (status_code <? 600)%Z)%bool.

(** The response the web framework sends for an outcome of [city_forecast]:
    the returned dictionary with status 200, an [HTTPException] as its status
    code with its detail, any other exception as a 500. *)
Definition serve (http_error : Z -> string) (r : result ForecastPayload) : Transport :=
  Replied (http_status r) (http_error (http_status r))
    match r with
    | Ok p => JObj (payload_members p)
    | Raise (HTTPException _ d) => JObj [("detail"%string, JStr d)]
    | Raise (ValueError _) => JStr "Internal Server Error"
    end.

(** Truth value of a JSON value in an [if]. *)
Definition json_truthy (v : Json) : bool :=
  match v with
  | JNull => false
  | JBool b => b
  | JNum x => negb (Qeq_bool x 0)
  | JStr s => Py.truthy_str s
  | JArr l => Py.truthy l
  | JObj m => Py.truthy m
  end.

Section Dashboard.

(** The network between dashboard and backend: the answer to a GET of a URL
    with a [city] parameter.  [str] of a value that is not a string, and
    [float] of a string, are Python's. *)
Variable http_get : string -> string -> Transport.
Variable py_str : Json -> string.
Variable float_of_string : string -> option Q.

(** [get_forecast(backend, city_name)]. *)
Definition get_forecast (backend city_name : string) : Fetched :=
  match http_get (backend ++ "/city_forecast")%string city_name with
  | RequestFailed e => RuntimeError ("Could not fetch forecast: " ++ e)%string
  | Replied status_code e body =>
      if raises_for_status status_code
      then RuntimeError ("Could not fetch forecast: " ++ e)%string
      else Data body
  end.

(** A value inside an f-string. *)
Definition format (v : Json) : string :=
  match v with
  | JStr s => s
  | _ => py_str v
  end.

(** The page header, [data.get("location", city)]. *)
Definition header (data : list (string * Json)) (city : string) : Json :=
  dict_get data "location" (JStr city).

(** The value of a rainfall metric, [data.get(key, "N/A")]. *)
Definition metric (data : list (string * Json)) (key : string) : Json :=
  dict_get data key (JStr "N/A").

(** [risk_display]; [None] when ["risk"] is not an object and [risk.get]
    raises. *)
Definition risk_display (data : list (string * Json)) : option string :=
  match dict_get data "risk" (JObj []) with
  | JObj risk =>
      Some ("Flood: " ++ format (dict_get risk "flood" (JStr "N/A"))
            ++ "  |  Heat: " ++ format (dict_get risk "heat" (JStr "N/A"))
            ++ "  |  Storm: " ++ format (dict_get risk "storm" (JStr "N/A")))%string
  | _ => None
  end.

(** The advisory banner for the selected language. *)
Definition advisory (data : list (string * Json)) (lang : string) : Json :=
  let advisory := dict_get data "advisory_en" (JStr "") in
  if (lang =? "Hindi")%string then dict_get data "advisory_hi" advisory
  else if (lang =? "Marathi")%string then dict_get data "advisory_mr" advisory
  else advisory.

(** The name of the CSV download. *)
Definition file_name (city : string) : string :=
  (Py.replace_char " " "_" city ++ "_weather.csv")%string.

(** [float(v)]; [None] when it raises. *)
Definition py_float (v : Json) : option Q :=
  match v with
  | JNum x => Some x
  | JBool b => Some (if b then 1 else 0)
  | JStr s => float_of_string s
  | _ => None
  end.

(** The point given to the map, if any: [lat] and [lon] must both be truthy
    and convert to floats. *)
Definition map_point (data : list (string * Json)) : option (Q * Q) :=
  if (json_truthy (dict_get data "lat" JNull)
      && json_truthy (dict_get data "lon" JNull))%bool
  then
    match py_float (dict_get data "lat" JNull), py_float (dict_get data "lon" JNull) with
    | Some la, Some lo => Some (la, lo)
    | _, _ => None
    end
  else None.

End Dashboard.

(** The network when the backend URL reaches this backend: a GET of
    [/city_forecast] is answered by [city_forecast]. *)
Definition backend_http_get
    (geocoding_api : string -> GeoResponse)
    (forecast_api : Q -> Q -> WeatherResponse)
    (pstdev : list Q -> Q) (http_error : Z -> string)
    (url city : string) : Transport :=
  serve http_error (city_forecast geocoding_api forecast_api pstdev city).

(** [x] is at least 0. *)
Definition nonneg (x : Q) : Prop := 0 <= x.

(** The five hourly arrays of a payload have one length. *)
Definition aligned (p : ForecastPayload) : Prop :=
  List.length (temperature p) = List.length (times p) /\
  List.length (precip p) = List.length (times p) /\
  List.length (humidity p) = List.length (times p) /\
  List.length (wind p) = List.length (times p).

(** A forecast provider with no hourly data, and one whose arrays differ in
    length. *)
Definition demo_empty_forecast_api (lat lon : Q) : WeatherResponse :=
  {| w_status_code := 200;
     w_hourly := {| h_time := []; h_temperature_2m := []; h_precipitation := [];
                    h_relativehumidity_2m := []; h_windspeed_10m := [] |} |}.

Definition demo_ragged_forecast_api (lat lon : Q) : WeatherResponse :=
  {| w_status_code := 200;
     w_hourly := {| h_time := ["2024-07-01T00:00"%string; "2024-07-01T01:00"%string];
                    h_temperature_2m := [30; 31]; h_precipitation := [0.4];
                    h_relativehumidity_2m := [80; 81]; h_windspeed_10m := [3; 4] |} |}.

(** ** Comparisons and [max] *)

Lemma ge_true (x y : Q) : Py.ge x y = true <-> y <= x.
Proof. unfold Py.ge. apply Qle_bool_iff. Qed.

Lemma ge_false (x y : Q) : Py.ge x y = false <-> x < y.
Proof.
  unfold Py.ge. rewrite <- not_true_iff_false, Qle_bool_iff.
  split; [apply Qnot_le_lt | apply Qlt_not_le].
Qed.

Lemma gt_true (x y : Q) : Py.gt x y = true <-> y < x.
Proof.
  unfold Py.gt. rewrite negb_true_iff, <- not_true_iff_false, Qle_bool_iff.
  split; [apply Qnot_le_lt | apply Qlt_not_le].
Qed.

Lemma gt_false (x y : Q) : Py.gt x y = false <-> x <= y.
Proof. unfold Py.gt. rewrite negb_false_iff. apply Qle_bool_iff. Qed.

(** Turns the boolean comparisons among the hypotheses into inequalities. *)
Ltac ge_to_Q :=
  repeat match goal with
         | H : Py.ge _ _ = true |- _ => apply ge_true in H
         | H : Py.ge _ _ = false |- _ => apply ge_false in H
         end.

(** The scan of [max]: the result is the start value or an item, and bounds
    both. *)
Lemma max_scan (xs : list Q) : forall x,
  let m := fold_left (fun m y => if Py.gt y m then y else m) xs x in
  (m = x \/ In m xs) /\ x <= m /\ (forall y, In y xs -> y <= m).
Proof.
  induction xs as [|a xs IH]; intros x; simpl.
  - split; [now left|]. split; [apply Qle_refl|]. intros y [].
  - destruct (Py.gt a x) eqn:E.
    + apply gt_true in E. destruct (IH a) as (Hin & Hle & Hub).
      split; [right; destruct Hin; [left; congruence | now right]|].
      split; [apply Qle_trans with a; [now apply Qlt_le_weak | exact Hle]|].
      intros y [<-|Hy]; [exact Hle | now apply Hub].
    + apply gt_false in E. destruct (IH x) as (Hin & Hle & Hub).
      split; [destruct Hin; [now left | right; now right]|].
      split; [exact Hle|].
      intros y [<-|Hy]; [now apply Qle_trans with x | now apply Hub].
Qed.

Lemma max_is_maximum (l : list Q) :
  l <> [] -> exists m, Py.max l = Ok m /\ is_maximum l m.
Proof.
  destruct l as [|x xs]; [congruence|]. intros _.
  eexists. split; [reflexivity|].
  destruct (max_scan xs x) as (Hin & Hle & Hub).
  split.
  - eexists. split; [|apply Qeq_refl].
    destruct Hin as [->|Hin]; [now left | now right].
  - intros y [<-|Hy]; [exact Hle | now apply Hub].
Qed.

Lemma is_maximum_unique (l : list Q) (m m' : Q) :
  is_maximum l m -> is_maximum l m' -> m == m'.
Proof.
  intros [(x & Hx & Ex) Ub] [(x' & Hx' & Ex') Ub'].
  apply Qle_antisym.
  - rewrite <- Ex. now apply Ub'.
  - rewrite <- Ex'. now apply Ub.
Qed.

Lemma max_of_maximum (l : list Q) (m : Q) :
  is_maximum l m -> exists m', Py.max l = Ok m' /\ m' == m.
Proof.
  intros H. assert (Hne : l <> []).
  { destruct H as [(x & Hx & _) _]. intros ->. destruct Hx. }
  destruct (max_is_maximum l Hne) as (m' & E & Hm').
  exists m'. split; [exact E|]. now apply is_maximum_unique with l.
Qed.

(** ** The risk classifier *)

Lemma classify_level (x high medium : Q) : is_level (classify x high medium).
Proof.
  unfold classify, is_level.
  destruct (Py.ge x high); [auto|]. destruct (Py.ge x medium); auto.
Qed.

Lemma classify_spec (x high medium : Q) :
  medium <= high ->
  (classify x high medium = "High"%string <-> high <= x) /\
  (classify x high medium = "Medium"%string <-> medium <= x < high) /\
  (classify x high medium = "Low"%string <-> x < medium).
Proof.
  intros Hmh. unfold classify.
  destruct (Py.ge x high) eqn:Eh; [apply ge_true in Eh | apply ge_false in Eh];
    [|destruct (Py.ge x medium) eqn:Em;
        [apply ge_true in Em | apply ge_false in Em]];
    repeat split; intros; try discriminate; try lra.
Qed.

(** The value bound to [max_temp] / [max_wind]: the window's maximum, or the
    default when the window is empty.  It never raises. *)
Lemma window_max (l : list Q) (d : Q) :
  exists m, (if Py.truthy l then Py.max l else Ok d) = Ok m /\
            ((l = [] /\ m = d) \/ is_maximum l m).
Proof.
  destruct l as [|x xs].
  - exists d. split; [reflexivity | now left].
  - destruct (max_is_maximum (x :: xs)) as (m & E & Hm); [discriminate|].
    exists m. split; [exact E | now right].
Qed.

(** One run of [summarize_risks], with the two maxima named. *)
Lemma summarize_risks_run (rolling_24 : Q) (temps_24 winds_24 : list Q) :
  exists mt mw,
    (if Py.truthy temps_24 then Py.max temps_24 else Ok (-999)) = Ok mt /\
    (if Py.truthy winds_24 then Py.max winds_24 else Ok 0) = Ok mw /\
    summarize_risks rolling_24 temps_24 winds_24 =
      Ok {| flood := classify rolling_24 50 (50 * 0.6);
            heat := classify mt 40 35;
            storm := classify mw 15 8;
            max_temp := Py.round mt 1;
            max_wind := Py.round mw 1 |}.
Proof.
  destruct (window_max temps_24 (-999)) as (mt & Et & _).
  destruct (window_max winds_24 0) as (mw & Ew & _).
  exists mt, mw. split; [exact Et|]. split; [exact Ew|].
  unfold summarize_risks. rewrite Et. simpl. rewrite Ew. reflexivity.
Qed.

Lemma flood_level_run (rolling_24 : Q) (temps_24 winds_24 : list Q) :
  flood_level rolling_24 temps_24 winds_24 = Ok (classify rolling_24 50 30).
Proof.
  unfold flood_level.
  destruct (summarize_risks_run rolling_24 temps_24 winds_24) as (mt & mw & _ & _ & E).
  rewrite E. simpl. f_equal. unfold classify.
  destruct (Py.ge rolling_24 50); [reflexivity|].
  replace (Py.ge rolling_24 (50 * 0.6)) with (Py.ge rolling_24 30); [reflexivity|].
  unfold Py.ge. apply eq_true_iff_eq. rewrite !Qle_bool_iff.
  split; intros; lra.
Qed.

Lemma classify_comp (x y high medium : Q) :
  x == y -> classify x high medium = classify y high medium.
Proof.
  intros E. unfold classify, Py.ge.
  assert (H : forall c, Qle_bool c x = Qle_bool c y).
  { intros c. apply eq_true_iff_eq. rewrite !Qle_bool_iff, E. reflexivity. }
  now rewrite !H.
Qed.

Lemma heat_level_run (rolling_24 : Q) (temps_24 winds_24 : list Q) (m : Q) :
  is_maximum temps_24 m ->
  heat_level rolling_24 temps_24 winds_24 = Ok (classify m 40 35).
Proof.
  intros Hm. unfold heat_level.
  destruct (summarize_risks_run rolling_24 temps_24 winds_24) as (mt & mw & Et & _ & E).
  rewrite E. simpl. f_equal.
  destruct (max_of_maximum _ _ Hm) as (m' & E' & Hm').
  assert (Hne : Py.truthy temps_24 = true).
  { destruct temps_24; [discriminate E' | reflexivity]. }
  rewrite Hne, E' in Et. injection Et as <-. now apply classify_comp.
Qed.

Lemma storm_level_run (rolling_24 : Q) (temps_24 winds_24 : list Q) (m : Q) :
  is_maximum winds_24 m ->
  storm_level rolling_24 temps_24 winds_24 = Ok (classify m 15 8).
Proof.
  intros Hm. unfold storm_level.
  destruct (summarize_risks_run rolling_24 temps_24 winds_24) as (mt & mw & _ & Ew & E).
  rewrite E. simpl. f_equal.
  destruct (max_of_maximum _ _ Hm) as (m' & E' & Hm').
  assert (Hne : Py.truthy winds_24 = true).
  { destruct winds_24; [discriminate E' | reflexivity]. }
  rewrite Hne, E' in Ew. injection Ew as <-. now apply classify_comp.
Qed.

Lemma Ok_inj {A : Type} (x y : A) : Ok x = Ok y <-> x = y.
Proof. split; [now injection 1 | now intros ->]. Qed.

(** C1.  [summarize_risks] assigns each level by inclusive lower bounds tried
    from the top: flood is High iff [rolling_24 >= 50], Medium iff
    [30 <= rolling_24 < 50], Low iff [rolling_24 < 30]; heat is High iff the
    maximum of the temperature window is [>= 40], Medium iff it is in
    [35, 40), Low below; storm is High iff the maximum of the wind window is
    [>= 15], Medium iff it is in [8, 15), Low below; an empty window gives
    Low.  The documented boundary
    values fall on the inclusive side: 50 is High flood, 49.999 Medium, 30
    Medium, 29.999 Low; a maximum temperature of 40 is High heat, 35 Medium,
    34.999 Low; a maximum wind of 15 is High storm, 8 Medium. *)
Theorem risk_thresholds :
  (forall (rolling_24 : Q) (temps_24 winds_24 : list Q),
      (flood_level rolling_24 temps_24 winds_24 = Ok "High"%string
         <-> 50 <= rolling_24) /\
      (flood_level rolling_24 temps_24 winds_24 = Ok "Medium"%string
         <-> 30 <= rolling_24 < 50) /\
      (flood_level rolling_24 temps_24 winds_24 = Ok "Low"%string
         <-> rolling_24 < 30) /\
      (forall m, is_maximum temps_24 m ->
         (heat_level rolling_24 temps_24 winds_24 = Ok "High"%string <-> 40 <= m) /\
         (heat_level rolling_24 temps_24 winds_24 = Ok "Medium"%string
            <-> 35 <= m < 40) /\
         (heat_level rolling_24 temps_24 winds_24 = Ok "Low"%string <-> m < 35)) /\
      (forall m, is_maximum winds_24 m ->
         (storm_level rolling_24 temps_24 winds_24 = Ok "High"%string <-> 15 <= m) /\
         (storm_level rolling_24 temps_24 winds_24 = Ok "Medium"%string
            <-> 8 <= m < 15) /\
         (storm_level rolling_24 temps_24 winds_24 = Ok "Low"%string <-> m < 8)) /\
      (temps_24 = [] -> heat_level rolling_24 temps_24 winds_24 = Ok "Low"%string) /\
      (winds_24 = [] -> storm_level rolling_24 temps_24 winds_24 = Ok "Low"%string)) /\
  (forall temps_24 winds_24,
      flood_level 50 temps_24 winds_24 = Ok "High"%string /\
      flood_level 49.999 temps_24 winds_24 = Ok "Medium"%string /\
      flood_level 30 temps_24 winds_24 = Ok "Medium"%string /\
      flood_level 29.999 temps_24 winds_24 = Ok "Low"%string) /\
  (forall rolling_24 temps_24 winds_24,
      (is_maximum temps_24 40 ->
         heat_level rolling_24 temps_24 winds_24 = Ok "High"%string) /\
      (is_maximum temps_24 35 ->
         heat_level rolling_24 temps_24 winds_24 = Ok "Medium"%string) /\
      (is_maximum temps_24 34.999 ->
         heat_level rolling_24 temps_24 winds_24 = Ok "Low"%string) /\
      (is_maximum winds_24 15 ->
         storm_level rolling_24 temps_24 winds_24 = Ok "High"%string) /\
      (is_maximum winds_24 8 ->
         storm_level rolling_24 temps_24 winds_24 = Ok "Medium"%string)).
Proof.
  split; [|split].
  - intros r t w. rewrite flood_level_run, !Ok_inj.
    destruct (classify_spec r 50 30) as (H1 & H2 & H3); [lra|].
    split; [exact H1|]. split; [exact H2|]. split; [exact H3|].
    split; [|split; [|split]].
    + intros m Hm.
      rewrite (heat_level_run r t w m Hm), !Ok_inj. apply classify_spec. lra.
    + intros m Hm.
      rewrite (storm_level_run r t w m Hm), !Ok_inj. apply classify_spec. lra.
    + intros ->. unfold heat_level.
      destruct (summarize_risks_run r [] w) as (mt & mw & Et & _ & E).
      injection Et as <-. now rewrite E.
    + intros ->. unfold storm_level.
      destruct (summarize_risks_run r t []) as (mt & mw & _ & Ew & E).
      injection Ew as <-. now rewrite E.
  - intros t w. rewrite !flood_level_run. repeat split.
  - intros r t w. repeat split; intros Hm.
    + now rewrite (heat_level_run r t w _ Hm).
    + now rewrite (heat_level_run r t w _ Hm).
    + now rewrite (heat_level_run r t w _ Hm).
    + now rewrite (storm_level_run r t w _ Hm).
    + now rewrite (storm_level_run r t w _ Hm).
Qed.

(** The thresholds at work on concrete windows. *)
Lemma risk_thresholds_witness :
  heat_level 12 [31; 40; 39.5] [3; 15; 7] = Ok "High"%string /\
  heat_level 12 [35; 20] [3; 15; 7] = Ok "Medium"%string /\
  storm_level 12 [31; 40; 39.5] [3; 15; 7] = Ok "High"%string /\
  storm_level 12 [31; 40; 39.5] [8; 2] = Ok "Medium"%string.
Proof.
  assert (M1 : is_maximum [31; 40; 39.5] 40).
  { split; [exists 40; split; [simpl; tauto | reflexivity]|].
    intros y [<-|[<-|[<-|[]]]]; lra. }
  assert (M2 : is_maximum [35; 20] 35).
  { split; [exists 35; split; [simpl; tauto | reflexivity]|].
    intros y [<-|[<-|[]]]; lra. }
  assert (M3 : is_maximum [3; 15; 7] 15).
  { split; [exists 15; split; [simpl; tauto | reflexivity]|].
    intros y [<-|[<-|[<-|[]]]]; lra. }
  assert (M4 : is_maximum [8; 2] 8).
  { split; [exists 8; split; [simpl; tauto | reflexivity]|].
    intros y [<-|[<-|[]]]; lra. }
  destruct risk_thresholds as (_ & _ & B).
  destruct (B 12 [31; 40; 39.5] [3; 15; 7]) as (H40 & _ & _ & H15 & _).
  destruct (B 12 [35; 20] [3; 15; 7]) as (_ & H35 & _).
  destruct (B 12 [31; 40; 39.5] [8; 2]) as (_ & _ & _ & _ & H8).
  split; [exact (H40 M1)|]. split; [exact (H35 M2)|].
  split; [exact (H15 M3) | exact (H8 M4)].
Defined.

(** C4.  [summarize_risks] never raises and returns one of the three levels
    for each dimension.  With an empty temperature window [max_temp] is the
    sentinel -999 and heat is Low; with an empty wind window [max_wind] is
    0.0 and storm is Low. *)
Theorem classifier_total :
  (forall (rolling_24 : Q) (temps_24 winds_24 : list Q),
      exists r, summarize_risks rolling_24 temps_24 winds_24 = Ok r /\
                is_level (flood r) /\ is_level (heat r) /\ is_level (storm r)) /\
  (forall (rolling_24 : Q) (winds_24 : list Q),
      exists r, summarize_risks rolling_24 [] winds_24 = Ok r /\
                heat r = "Low"%string /\ max_temp r == -999) /\
  (forall (rolling_24 : Q) (temps_24 : list Q),
      exists r, summarize_risks rolling_24 temps_24 [] = Ok r /\
                storm r = "Low"%string /\ max_wind r == 0).
Proof.
  split; [|split].
  - intros r t w.
    destruct (summarize_risks_run r t w) as (mt & mw & _ & _ & E).
    eexists. split; [exact E|]. simpl. repeat split; apply classify_level.
  - intros r w.
    destruct (summarize_risks_run r [] w) as (mt & mw & Et & _ & E).
    simpl in Et. injection Et as <-.
    eexists. split; [exact E|]. simpl. split; reflexivity.
  - intros r t.
    destruct (summarize_risks_run r t []) as (mt & mw & _ & Ew & E).
    simpl in Ew. injection Ew as <-.
    eexists. split; [exact E|]. simpl. split; reflexivity.
Qed.

(** C5.  Flood classification is monotonic in [rolling_24]: for [a <= b] and
    the same two windows, the flood level for [a] is at most the flood level
    for [b] in the order Low < Medium < High. *)
Theorem flood_monotonic (a b : Q) (temps_24 winds_24 : list Q) :
  a <= b ->
  exists la lb,
    flood_level a temps_24 winds_24 = Ok la /\
    flood_level b temps_24 winds_24 = Ok lb /\
    exists ra rb,
      level_of_string la = Some ra /\ level_of_string lb = Some rb /\
      level_le ra rb.
Proof.
  intros Hab. rewrite !flood_level_run.
  do 2 eexists. split; [reflexivity|]. split; [reflexivity|].
  unfold classify.
  destruct (Py.ge a 50) eqn:Ea; destruct (Py.ge b 50) eqn:Eb;
    destruct (Py.ge a 30) eqn:Fa; destruct (Py.ge b 30) eqn:Fb;
    ge_to_Q; try lra;
    do 2 eexists; (split; [reflexivity|]); (split; [reflexivity|]);
    unfold level_le; simpl; lia.
Qed.

Lemma flood_monotonic_witness :
  29.5 <= 50 /\
  exists la lb,
    flood_level 29.5 [21; 22] [4] = Ok la /\
    flood_level 50 [21; 22] [4] = Ok lb /\
    exists ra rb,
      level_of_string la = Some ra /\ level_of_string lb = Some rb /\
      level_le ra rb.
Proof.
  split; [lra|]. apply (flood_monotonic 29.5 50 [21; 22] [4]). lra.
Defined.

(** ** The rolling sum *)

Lemma slice_from_nonneg {A : Type} (l : list A) (k : Z) :
  (0 <= k)%Z -> Py.slice_from l k = skipn (Z.to_nat k) l.
Proof.
  intros Hk. unfold Py.slice_from, Py.len.
  destruct (k <? 0)%Z eqn:E; [apply Z.ltb_lt in E; lia|].
  destruct (Z.le_gt_cases k (Z.of_nat (List.length l))) as [Hle|Hgt].
  - now rewrite Z.min_l.
  - rewrite Z.min_r, Nat2Z.id by lia.
    rewrite !skipn_all2; [reflexivity | lia | lia].
Qed.

Lemma slice_from_last {A : Type} (l : list A) (h : Z) :
  (1 <= h <= Py.len l)%Z ->
  Py.slice_from l (- h) = last_entries (Z.to_nat h) l.
Proof.
  unfold Py.slice_from, Py.len, last_entries. intros Hh.
  destruct (- h <? 0)%Z eqn:E; [|apply Z.ltb_ge in E; lia].
  f_equal. lia.
Qed.

Lemma last_entries_length {A : Type} (l : list A) (h : nat) :
  (h <= List.length l)%nat -> List.length (last_entries h l) = h.
Proof. intros Hh. unfold last_entries. rewrite length_skipn. lia. Qed.

Lemma compute_rolling_nonempty (v : list Q) (h : Z) :
  v <> [] ->
  compute_rolling v h =
    if (Py.len v <? h)%Z then Py.round (Py.sum v) 2
    else Py.round (Py.sum (Py.slice_from v (- h))) 2.
Proof. destruct v; [congruence | reflexivity]. Qed.

(** C2, as amended.  [compute_rolling v h] is 0.0 when [v] is empty; the
    rounded sum of all of [v] when [v] is non-empty and shorter than [h];
    and, when [1 <= h <= len v], the rounded sum of the last [h] entries of
    [v], of which there are exactly [h]. *)
Theorem compute_rolling_window (v : list Q) (h : Z) :
  (v = [] -> compute_rolling v h = 0) /\
  (v <> [] -> (Py.len v < h)%Z -> compute_rolling v h = Py.round (Py.sum v) 2) /\
  (v <> [] -> (1 <= h <= Py.len v)%Z ->
     compute_rolling v h = Py.round (Py.sum (last_entries (Z.to_nat h) v)) 2 /\
     List.length (last_entries (Z.to_nat h) v) = Z.to_nat h).
Proof.
  split; [now intros ->|]. split.
  - intros Hv Hlt. rewrite compute_rolling_nonempty by exact Hv.
    apply Z.ltb_lt in Hlt. now rewrite Hlt.
  - intros Hv Hh. rewrite compute_rolling_nonempty by exact Hv.
    destruct (Py.len v <? h)%Z eqn:E; [apply Z.ltb_lt in E; lia|].
    rewrite slice_from_last by exact Hh. split; [reflexivity|].
    apply last_entries_length. unfold Py.len in Hh. lia.
Qed.

Lemma compute_rolling_window_witness :
  compute_rolling [] 24 = 0 /\
  compute_rolling [1.5; 2.25] 24 = Py.round (Py.sum [1.5; 2.25]) 2 /\
  compute_rolling [1.5; 2.25; 4] 2 = Py.round (Py.sum [2.25; 4]) 2.
Proof.
  destruct (compute_rolling_window [] 24) as (Hempty & _ & _).
  destruct (compute_rolling_window [1.5; 2.25] 24) as (_ & Hshort & _).
  destruct (compute_rolling_window [1.5; 2.25; 4] 2) as (_ & _ & Hlast).
  split; [apply Hempty; reflexivity|].
  split; [apply Hshort; [discriminate | unfold Py.len; simpl; lia]|].
  apply Hlast; [discriminate | unfold Py.len; simpl; lia].
Defined.

(** C2 as stated fails for a window of size 0: the last zero entries sum to
    0, while the slice [values[-0:]] is the whole list. *)
Lemma compute_rolling_window_zero :
  compute_rolling [1; 2] 0 == 3 /\
  rollingSum_spec [1; 2] 0 == 0 /\
  ~ compute_rolling [1; 2] 0 == rollingSum_spec [1; 2] 0.
Proof. split; [reflexivity|]. split; [reflexivity|]. discriminate. Qed.

(** C9, as amended.  For a non-empty list and [hours <= 0], the slice
    [values[-hours:]] starts at index [-hours]: [compute_rolling] returns the
    rounded sum of the list without its first [-hours] entries.  For
    [hours = 0] that is the rounded sum of the entire list. *)
Theorem compute_rolling_nonpositive (v : list Q) (h : Z) :
  v <> [] -> (h <= 0)%Z ->
  compute_rolling v h = Py.round (Py.sum (skipn (Z.to_nat (- h)) v)) 2 /\
  (h = 0%Z -> compute_rolling v h = Py.round (Py.sum v) 2).
Proof.
  intros Hv Hh.
  assert (E : compute_rolling v h = Py.round (Py.sum (skipn (Z.to_nat (- h)) v)) 2).
  { rewrite compute_rolling_nonempty by exact Hv.
    destruct (Py.len v <? h)%Z eqn:E;
      [apply Z.ltb_lt in E; unfold Py.len in E; lia|].
    rewrite slice_from_nonneg by lia. reflexivity. }
  split; [exact E|]. intros ->. exact E.
Qed.

Lemma compute_rolling_nonpositive_witness :
  compute_rolling [1; 2; 4] (-1) = Py.round (Py.sum [2; 4]) 2 /\
  compute_rolling [1; 2; 4] 0 = Py.round (Py.sum [1; 2; 4]) 2.
Proof.
  split.
  - apply (compute_rolling_nonpositive [1; 2; 4] (-1)); [discriminate | lia].
  - apply (compute_rolling_nonpositive [1; 2; 4] 0); [discriminate | lia | reflexivity].
Defined.

(** C9 as stated fails for a negative window: with [hours = -1] the first
    entry is left out of the sum. *)
Lemma compute_rolling_negative_window :
  [1; 2] <> [] /\ (-1 <= 0)%Z /\ (-1 <= Py.len [1; 2])%Z /\
  compute_rolling [1; 2] (-1) == 2 /\
  Py.round (Py.sum [1; 2]) 2 == 3 /\
  ~ compute_rolling [1; 2] (-1) == Py.round (Py.sum [1; 2]) 2.
Proof.
  split; [discriminate|]. split; [lia|]. split; [unfold Py.len; simpl; lia|].
  split; [reflexivity|]. split; [reflexivity|]. discriminate.
Qed.

(** ** The advisory composer *)

Lemma sentences_snoc (l : list string) (s : string) :
  s <> EmptyString -> sentences l -> sentences (l ++ [s]).
Proof.
  intros Hs Hl. apply Forall_app. split; [exact Hl|]. now constructor.
Qed.

Lemma append_en_ok (s : string) (c : Clauses) :
  s <> EmptyString -> clauses_ok c -> clauses_ok (append_en s c).
Proof.
  intros Hs (He & Hh & Hm). repeat split; simpl; auto using sentences_snoc.
Qed.

Lemma append_all_ok (e h m : string) (c : Clauses) :
  e <> EmptyString -> h <> EmptyString -> m <> EmptyString ->
  clauses_ok c -> clauses_ok (append_all e h m c).
Proof.
  intros He Hh Hm (Ce & Ch & Cm). repeat split; simpl; auto using sentences_snoc.
Qed.

Lemma extends_refl (c : Clauses) : extends c c.
Proof. repeat split; exists []; now rewrite app_nil_r. Qed.

Lemma extends_trans (a b c : Clauses) : extends a b -> extends b c -> extends a c.
Proof.
  intros ((l1 & E1) & (l2 & E2) & (l3 & E3)) ((k1 & F1) & (k2 & F2) & (k3 & F3)).
  repeat split; eexists.
  - rewrite F1, E1, <- app_assoc. reflexivity.
  - rewrite F2, E2, <- app_assoc. reflexivity.
  - rewrite F3, E3, <- app_assoc. reflexivity.
Qed.

Lemma append_en_extends (s : string) (c : Clauses) : extends c (append_en s c).
Proof.
  repeat split; simpl; [now exists [s] | exists [] | exists []];
    now rewrite app_nil_r.
Qed.

Lemma append_all_extends (e h m : string) (c : Clauses) :
  extends c (append_all e h m c).
Proof. repeat split; simpl; eexists; reflexivity. Qed.

Create HintDb advisory.

#[local] Hint Resolve extends_refl append_en_extends append_all_extends : advisory.

(** Splits on the tests of an [if]/[elif] chain over a string. *)
Ltac level_cases s :=
  destruct (s =? "High")%string; [|destruct (s =? "Medium")%string].

Lemma flood_clauses_ok (f : string) (c : Clauses) :
  clauses_ok c -> clauses_ok (flood_clauses f c).
Proof.
  intros Hc. unfold flood_clauses.
  level_cases f; [apply append_all_ok | apply append_all_ok | apply append_en_ok];
    auto; discriminate.
Qed.

Lemma heat_clauses_ok (h : string) (c : Clauses) :
  clauses_ok c -> clauses_ok (heat_clauses h c).
Proof.
  intros Hc. unfold heat_clauses.
  level_cases h; [apply append_all_ok | apply append_all_ok | exact Hc];
    auto; discriminate.
Qed.

Lemma storm_clauses_ok (s : string) (c : Clauses) :
  clauses_ok c -> clauses_ok (storm_clauses s c).
Proof.
  intros Hc. unfold storm_clauses.
  level_cases s; [apply append_all_ok | apply append_en_ok | exact Hc];
    auto; discriminate.
Qed.

Lemma heat_clauses_extends (h : string) (c : Clauses) :
  extends c (heat_clauses h c).
Proof. unfold heat_clauses. level_cases h; auto with advisory. Qed.

Lemma storm_clauses_extends (s : string) (c : Clauses) :
  extends c (storm_clauses s c).
Proof. unfold storm_clauses. level_cases s; auto with advisory. Qed.

(** The flood statement always appends an English clause. *)
Lemma flood_clauses_en (f : string) (c : Clauses) :
  exists s, clauses_en (flood_clauses f c) = clauses_en c ++ [s] /\
            (f <> "High"%string -> f <> "Medium"%string ->
             s = "Flood risk is low — normal conditions."%string).
Proof.
  unfold flood_clauses.
  destruct (String.eqb_spec f "High"); [|destruct (String.eqb_spec f "Medium")];
    simpl; eexists; (split; [reflexivity|]); intros; congruence.
Qed.

Lemma advisory_clauses_ok (risks : RiskSummary) : clauses_ok (advisory_clauses risks).
Proof.
  unfold advisory_clauses.
  apply storm_clauses_ok, heat_clauses_ok, flood_clauses_ok.
  repeat split; constructor.
Qed.

(** The English list of the result starts with the flood clause. *)
Lemma advisory_clauses_en (risks : RiskSummary) :
  exists s l, clauses_en (advisory_clauses risks) = s :: l /\
              (flood risks <> "High"%string -> flood risks <> "Medium"%string ->
               s = "Flood risk is low — normal conditions."%string).
Proof.
  unfold advisory_clauses.
  destruct (flood_clauses_en (flood risks) no_clauses) as (s & E & Hs).
  destruct (extends_trans _ _ _
              (heat_clauses_extends (heat risks) (flood_clauses (flood risks) no_clauses))
              (storm_clauses_extends (storm risks) _)) as ((l & El) & _).
  exists s, l. split; [|exact Hs]. rewrite El, E. reflexivity.
Qed.

Lemma join_nonempty (sep : string) (l : list string) :
  l <> [] -> sentences l -> Py.join sep l <> EmptyString.
Proof.
  destruct l as [|x xs]; [congruence|]. intros _ Hl.
  inversion Hl as [|? ? Hx _]; subst.
  unfold Py.join. simpl.
  destruct xs; [exact Hx|]. destruct x; [congruence | discriminate].
Qed.

Lemma truthy_nonempty {A : Type} (l : list A) : Py.truthy l = true <-> l <> [].
Proof. destruct l; simpl; split; congruence. Qed.

(** A joined advisory, or the English one in its place, is non-empty. *)
Lemma fallback_nonempty (l en : list string) :
  sentences l -> en <> [] -> sentences en ->
  (if Py.truthy l then Py.join " " l else Py.join " " en) <> EmptyString.
Proof.
  intros Hl Hen Sen. destruct (Py.truthy l) eqn:E.
  - apply join_nonempty; [now apply truthy_nonempty | exact Hl].
  - now apply join_nonempty.
Qed.

(** C6.  Each advisory is its language's clauses joined by single spaces,
    and a Hindi (Marathi) clause list that is empty after the three risk
    dimensions were processed is replaced by the whole English advisory.
    For flood Low, heat Low, storm Medium the English advisory is the
    flood-low clause followed by the storm-medium clause, and the Hindi and
    Marathi advisories equal it. *)
Theorem advisory_fallback :
  (forall risks : RiskSummary,
      let c := advisory_clauses risks in
      let a := build_bilingual_advisories risks in
      advisory_en a = Py.join " " (clauses_en c) /\
      (clauses_hi c <> [] -> advisory_hi a = Py.join " " (clauses_hi c)) /\
      (clauses_hi c = [] -> advisory_hi a = advisory_en a) /\
      (clauses_mr c <> [] -> advisory_mr a = Py.join " " (clauses_mr c)) /\
      (clauses_mr c = [] -> advisory_mr a = advisory_en a)) /\
  (forall a b c : string,
      Py.join " " [a; b; c] = (a ++ " " ++ b ++ " " ++ c)%string) /\
  (forall mt mw : Q,
      let risks := {| flood := "Low"; heat := "Low"; storm := "Medium";
                      max_temp := mt; max_wind := mw |} in
      let a := build_bilingual_advisories risks in
      clauses_en (advisory_clauses risks) =
        ["Flood risk is low — normal conditions."%string;
         "Moderate winds — be cautious while working at heights."%string] /\
      clauses_hi (advisory_clauses risks) = [] /\
      clauses_mr (advisory_clauses risks) = [] /\
      advisory_en a =
        "Flood risk is low — normal conditions. Moderate winds — be cautious while working at heights."%string /\
      advisory_hi a = advisory_en a /\
      advisory_mr a = advisory_en a).
Proof.
  split; [|split].
  - intros risks c a. subst a. unfold build_bilingual_advisories, assemble.
    fold c. simpl. split; [reflexivity|].
    repeat split; intros H.
    + apply truthy_nonempty in H. now rewrite H.
    + now rewrite H.
    + apply truthy_nonempty in H. now rewrite H.
    + now rewrite H.
  - reflexivity.
  - intros mt mw. repeat split.
Qed.

Lemma advisory_fallback_witness :
  let a := build_bilingual_advisories
             {| flood := "High"; heat := "Low"; storm := "Medium";
                max_temp := 30; max_wind := 9 |} in
  let b := build_bilingual_advisories
             {| flood := "Low"; heat := "Low"; storm := "Low";
                max_temp := 30; max_wind := 2 |} in
  advisory_hi a = "उच्च बाढ़ जोखिम — पशुधन और उपकरण सुरक्षित स्थान पर ले जाएं।"%string /\
  advisory_mr a = "उच्च पूर धोका — जनावरे व उपकरणे उंच जागी हलवा."%string /\
  advisory_hi b = advisory_en b /\
  advisory_mr b = advisory_en b.
Proof.
  destruct advisory_fallback as (H & _ & _).
  destruct (H {| flood := "High"; heat := "Low"; storm := "Medium";
                 max_temp := 30; max_wind := 9 |}) as (_ & Hhi & _ & Hmr & _).
  destruct (H {| flood := "Low"; heat := "Low"; storm := "Low";
                 max_temp := 30; max_wind := 2 |}) as (_ & _ & Hhi' & _ & Hmr').
  split; [apply Hhi; discriminate|]. split; [apply Hmr; discriminate|].
  split; [apply Hhi' | apply Hmr']; reflexivity.
Defined.

(** C7.  For a RiskSummary whose three levels are among Low, Medium and High,
    the English clause list is never empty (when flood is Low it starts with
    the "normal conditions" clause) and [advisory_en] is a non-empty
    string. *)
Theorem advisory_en_nonempty (risks : RiskSummary) :
  is_level (flood risks) -> is_level (heat risks) -> is_level (storm risks) ->
  clauses_en (advisory_clauses risks) <> [] /\
  (flood risks = "Low"%string ->
   hd_error (clauses_en (advisory_clauses risks)) =
     Some "Flood risk is low — normal conditions."%string) /\
  advisory_en (build_bilingual_advisories risks) <> EmptyString.
Proof.
  intros _ _ _.
  destruct (advisory_clauses_en risks) as (s & l & E & Hs).
  split; [rewrite E; discriminate|]. split.
  - intros Hlow. rewrite E. simpl. f_equal. apply Hs; rewrite Hlow; discriminate.
  - unfold build_bilingual_advisories, assemble. simpl.
    apply join_nonempty; [rewrite E; discriminate|].
    apply advisory_clauses_ok.
Qed.

Lemma advisory_en_nonempty_witness :
  advisory_en (build_bilingual_advisories
                 {| flood := "Low"; heat := "Medium"; storm := "High";
                    max_temp := 36; max_wind := 16 |}) <> EmptyString.
Proof.
  apply (advisory_en_nonempty
           {| flood := "Low"; heat := "Medium"; storm := "High";
              max_temp := 36; max_wind := 16 |});
    unfold is_level; simpl; tauto.
Defined.

(** C10.  For a RiskSummary whose three levels are among Low, Medium and
    High, [advisory_en], [advisory_hi] and [advisory_mr] are all non-empty:
    each of the last two is its own joined clause list when that list is
    non-empty, and the English advisory otherwise. *)
Theorem advisories_nonempty (risks : RiskSummary) :
  is_level (flood risks) -> is_level (heat risks) -> is_level (storm risks) ->
  let a := build_bilingual_advisories risks in
  advisory_en a <> EmptyString /\
  advisory_hi a <> EmptyString /\
  advisory_mr a <> EmptyString.
Proof.
  intros _ _ _ a. subst a.
  destruct (advisory_clauses_en risks) as (s & l & E & _).
  destruct (advisory_clauses_ok risks) as (Sen & Shi & Smr).
  assert (Hen : clauses_en (advisory_clauses risks) <> []) by (rewrite E; discriminate).
  unfold build_bilingual_advisories, assemble. simpl.
  split; [now apply join_nonempty|].
  split; now apply fallback_nonempty.
Qed.

Lemma advisories_nonempty_witness :
  let a := build_bilingual_advisories
             {| flood := "Low"; heat := "Low"; storm := "Medium";
                max_temp := 21; max_wind := 9 |} in
  advisory_en a <> EmptyString /\
  advisory_hi a <> EmptyString /\
  advisory_mr a <> EmptyString.
Proof.
  apply (advisories_nonempty
           {| flood := "Low"; heat := "Low"; storm := "Medium";
              max_temp := 21; max_wind := 9 |});
    unfold is_level; simpl; tauto.
Defined.

(** ** Sums and rounding *)

Lemma fold_plus_acc (l : list Q) (a : Q) :
  fold_left Qplus l a == a + fold_left Qplus l 0.
Proof.
  revert a. induction l as [|x l IH]; intros a; simpl.
  - lra.
  - rewrite (IH (a + x)), (IH (0 + x)). lra.
Qed.

Lemma sum_app (l k : list Q) : Py.sum (l ++ k) == Py.sum l + Py.sum k.
Proof. unfold Py.sum. rewrite fold_left_app. apply fold_plus_acc. Qed.

Lemma round_half_even_comp (x y : Q) :
  x == y -> Py.round_half_even x = Py.round_half_even y.
Proof.
  intros E. unfold Py.round_half_even.
  rewrite (Qfloor_comp _ _ E).
  assert (Ec : (x - inject_Z (Qfloor y) ?= 1 # 2) = (y - inject_Z (Qfloor y) ?= 1 # 2)).
  { now rewrite E. }
  now rewrite Ec.
Qed.

Lemma round_comp (x y : Q) (n : nat) : x == y -> Py.round x n = Py.round y n.
Proof.
  intros E. unfold Py.round. f_equal.
  apply round_half_even_comp. now rewrite E.
Qed.

(** A check of [is_maximum] that computes. *)
Lemma is_maximum_check (l : list Q) (m : Q) :
  existsb (fun x => Qeq_bool x m) l = true ->
  forallb (fun y => Qle_bool y m) l = true ->
  is_maximum l m.
Proof.
  intros He Ha. split.
  - apply existsb_exists in He. destruct He as (x & Hx & E).
    exists x. split; [exact Hx | now apply Qeq_bool_iff].
  - intros y Hy. rewrite forallb_forall in Ha. now apply Qle_bool_iff, Ha.
Qed.

(** ** The orchestrator and the endpoints *)

Lemma summarize_risks_levels (x : Q) (t w : list Q) (mt mw : Q) :
  is_maximum t mt -> is_maximum w mw ->
  exists r, summarize_risks x t w = Ok r /\
            flood r = classify x 50 30 /\
            heat r = classify mt 40 35 /\
            storm r = classify mw 15 8.
Proof.
  intros Ht Hw.
  pose proof (flood_level_run x t w) as Ef.
  pose proof (heat_level_run x t w mt Ht) as Eh.
  pose proof (storm_level_run x t w mw Hw) as Es.
  unfold flood_level, heat_level, storm_level in *.
  destruct (summarize_risks x t w) as [r|e]; [|discriminate].
  simpl in *. exists r. split; [reflexivity|].
  repeat split; congruence.
Qed.

(** C3.  When the geocoder answers 200 with exactly one location and the
    forecast provider answers 200 with 30 hourly entries whose precipitation
    sums to 55 over the last 24 entries and to 5 over the 6 entries before,
    with maximum temperature 41 and maximum wind 5 in the last 24 entries,
    [get_full_forecast] returns a payload with [rolling_24 = 55.0],
    [rolling_72 = 60.0], flood High, heat High and storm Low. *)
Theorem end_to_end_scenario
    (geocoding_api : string -> GeoResponse)
    (forecast_api : Q -> Q -> WeatherResponse)
    (pstdev : list Q -> Q)
    (city : string) (loc : GeoResult) (hourly : Hourly) :
  geocoding_api city = {| geo_status_code := 200; geo_results := [loc] |} ->
  forecast_api (res_latitude loc) (res_longitude loc) =
    {| w_status_code := 200; w_hourly := hourly |} ->
  List.length (h_precipitation hourly) = 30%nat ->
  List.length (h_temperature_2m hourly) = 30%nat ->
  List.length (h_windspeed_10m hourly) = 30%nat ->
  Py.sum (last_entries 24 (h_precipitation hourly)) == 55 ->
  Py.sum (firstn 6 (h_precipitation hourly)) == 5 ->
  is_maximum (last_entries 24 (h_temperature_2m hourly)) 41 ->
  is_maximum (last_entries 24 (h_windspeed_10m hourly)) 5 ->
  exists p,
    get_full_forecast geocoding_api forecast_api pstdev city = Ok p /\
    rolling_24 p == 55 /\
    rolling_72 p == 60 /\
    flood (risk p) = "High"%string /\
    heat (risk p) = "High"%string /\
    storm (risk p) = "Low"%string.
Proof.
  intros Hgeo Hfc Lp Lt Lw S24 S6 Mt Mw.
  set (pr := h_precipitation hourly) in *.
  assert (Hne : pr <> []) by (intros E; rewrite E in Lp; discriminate).
  assert (R24 : compute_rolling pr 24 = Py.round 55 2).
  { destruct (compute_rolling_window pr 24) as (_ & _ & H).
    destruct H as [H _]; [exact Hne | unfold Py.len; lia|].
    rewrite H. now apply round_comp. }
  assert (R72 : compute_rolling pr 72 = Py.round 60 2).
  { destruct (compute_rolling_window pr 72) as (_ & H & _).
    rewrite H; [|exact Hne | unfold Py.len; lia].
    apply round_comp.
    rewrite <- (firstn_skipn 6 pr), sum_app, S6.
    unfold last_entries in S24. rewrite Lp in S24. simpl in S24.
    rewrite S24. reflexivity. }
  destruct (summarize_risks_levels (compute_rolling pr 24) _ _ _ _ Mt Mw)
    as (r & Er & Ff & Fh & Fs).
  unfold get_full_forecast, geocode_city, fetch_weather.
  rewrite Hgeo. simpl. rewrite Hfc. simpl.
  fold pr. unfold Py.len. rewrite Lt, Lw. simpl.
  change (-24)%Z with (- (24))%Z.
  rewrite !slice_from_last by (unfold Py.len; lia).
  change (Z.to_nat 24) with 24%nat.
  rewrite Er. simpl.
  eexists. split; [reflexivity|]. simpl.
  rewrite Ff, Fh, Fs, R24, R72. repeat split.
Qed.

Lemma end_to_end_scenario_witness :
  exists p,
    get_full_forecast demo_geocoding_api demo_forecast_api demo_pstdev "Pune" = Ok p /\
    rolling_24 p == 55 /\
    rolling_72 p == 60 /\
    flood (risk p) = "High"%string /\
    heat (risk p) = "High"%string /\
    storm (risk p) = "Low"%string.
Proof.
  apply (end_to_end_scenario demo_geocoding_api demo_forecast_api demo_pstdev
           "Pune" demo_location demo_hourly);
    try reflexivity; apply is_maximum_check; reflexivity.
Defined.

(** The outcomes of [get_full_forecast], by what the providers answer. *)
Lemma get_full_forecast_outcome
    (geocoding_api : string -> GeoResponse)
    (forecast_api : Q -> Q -> WeatherResponse)
    (pstdev : list Q -> Q) (city : string) :
  let g := geocoding_api city in
  let r := get_full_forecast geocoding_api forecast_api pstdev city in
  (geo_status_code g <> 200%Z -> http_status r = 502%Z) /\
  (geo_status_code g = 200%Z -> geo_results g = [] -> http_status r = 404%Z) /\
  (forall res rest,
      geo_status_code g = 200%Z -> geo_results g = res :: rest ->
      let w := forecast_api (res_latitude res) (res_longitude res) in
      (w_status_code w <> 200%Z -> http_status r = 502%Z) /\
      (w_status_code w = 200%Z -> http_status r = 200%Z)).
Proof.
  intros g r. subst g r. unfold get_full_forecast, geocode_city.
  destruct (geocoding_api city) as [st results]. simpl.
  destruct (Z.eqb_spec st 200) as [->|Hst]; simpl.
  - split; [congruence|]. split; [now intros _ ->|].
    intros res rest _ ->. simpl. unfold fetch_weather.
    destruct (forecast_api (res_latitude res) (res_longitude res)) as [ws h]. simpl.
    destruct (Z.eqb_spec ws 200) as [->|Hws]; simpl.
    + split; [congruence|]. intros _.
      match goal with
      | |- context [summarize_risks ?x ?t ?w] =>
          destruct (summarize_risks_run x t w) as (mt & mw & _ & _ & E)
      end.
      rewrite E. reflexivity.
    + split; [reflexivity | congruence].
  - split; [reflexivity|]. split; [congruence|]. intros res rest E. congruence.
Qed.

(** The error statuses the two endpoints share: 404 when the geocoder finds
    nothing, 502 when a provider answers with another status than 200. *)
Lemma endpoint_errors
    (geocoding_api : string -> GeoResponse)
    (forecast_api : Q -> Q -> WeatherResponse)
    (pstdev : list Q -> Q) (city : string) :
  city <> EmptyString ->
  let g := geocoding_api city in
  let r1 := city_forecast geocoding_api forecast_api pstdev city in
  let r2 := export_csv geocoding_api forecast_api pstdev city in
  (geo_status_code g <> 200%Z -> http_status r1 = 502%Z /\ http_status r2 = 502%Z) /\
  (geo_status_code g = 200%Z -> geo_results g = [] ->
   http_status r1 = 404%Z /\ http_status r2 = 404%Z) /\
  (forall res rest,
      geo_status_code g = 200%Z -> geo_results g = res :: rest ->
      w_status_code (forecast_api (res_latitude res) (res_longitude res)) <> 200%Z ->
      http_status r1 = 502%Z /\ http_status r2 = 502%Z).
Proof.
  intros Hc g r1 r2. subst g r1 r2. unfold city_forecast, export_csv.
  destruct city as [|a city']; [congruence|]. simpl Py.truthy_str. simpl negb.
  cbv iota.
  destruct (get_full_forecast_outcome geocoding_api forecast_api pstdev (String a city'))
    as (H502 & H404 & Hw).
  set (r := get_full_forecast geocoding_api forecast_api pstdev (String a city')) in *.
  assert (Hraise : forall c, c <> 200%Z -> http_status r = c ->
            http_status (data <- r ;;
                         df <- make_DataFrame (times data) (temperature data)
                                 (precip data) (humidity data) (wind data) ;;
                         Ok {| content := df;
                               filename := (Py.replace_char " " "_" (String a city')
                                            ++ "_weather.csv")%string |}) = c).
  { intros c Hne E. destruct r as [p|e]; [simpl in E; congruence | exact E]. }
  split; [|split].
  - intros Hs. split; [now apply H502 | apply Hraise; [lia | now apply H502]].
  - intros Hs Hr. split; [now apply H404 | apply Hraise; [lia | now apply H404]].
  - intros res rest Hs Hr Hws. destruct (Hw res rest Hs Hr) as [Hbad _].
    split; [now apply Hbad | apply Hraise; [lia | now apply Hbad]].
Qed.

(** C8, where the code departs from it.  [city_forecast] answers an empty
    [city] with 400; [export_csv] has no such check and never answers 400:
    an empty [city] goes to the geocoder, and with a geocoder that finds
    nothing for it the response is 404. *)
Theorem export_csv_empty_city :
  (forall geocoding_api forecast_api pstdev,
      http_status (city_forecast geocoding_api forecast_api pstdev "") = 400%Z) /\
  (forall geocoding_api forecast_api pstdev city,
      http_status (export_csv geocoding_api forecast_api pstdev city) <> 400%Z) /\
  http_status (export_csv demo_geocoding_api demo_forecast_api demo_pstdev "") = 404%Z.
Proof.
  split; [reflexivity|]. split; [|reflexivity].
  intros geocoding_api forecast_api pstdev city.
  destruct (get_full_forecast_outcome geocoding_api forecast_api pstdev city)
    as (H502 & H404 & Hw).
  unfold export_csv.
  set (r := get_full_forecast geocoding_api forecast_api pstdev city) in *.
  assert (Hr : http_status r <> 400%Z).
  { destruct (Z.eq_dec (geo_status_code (geocoding_api city)) 200) as [Hs|Hs];
      [|rewrite (H502 Hs); lia].
    destruct (geo_results (geocoding_api city)) as [|res rest] eqn:Er;
      [rewrite (H404 Hs eq_refl); lia|].
    destruct (Hw res rest Hs eq_refl) as [Hbad Hgood].
    destruct (Z.eq_dec (w_status_code
                          (forecast_api (res_latitude res) (res_longitude res))) 200)
      as [Hws|Hws]; [rewrite (Hgood Hws) | rewrite (Hbad Hws)]; lia. }
  destruct r as [p|e]; [|exact Hr]. simpl.
  destruct (make_DataFrame (times p) (temperature p) (precip p) (humidity p) (wind p))
    as [df|e] eqn:Edf; simpl; [lia|].
  unfold make_DataFrame in Edf.
  destruct (_ && _)%bool in Edf; [discriminate|].
  injection Edf as <-. lia.
Qed.

(** ** More on the rolling sum *)

Lemma round_half_even_mono (x y : Q) :
  x <= y -> (Py.round_half_even x <= Py.round_half_even y)%Z.
Proof.
  intros Hxy. pose proof (Qfloor_resp_le _ _ Hxy) as Hf.
  pose proof (Qfloor_le x) as Hx1. pose proof (Qlt_floor x) as Hx2.
  pose proof (Qfloor_le y) as Hy1. pose proof (Qlt_floor y) as Hy2.
  unfold Py.round_half_even.
  destruct (Z.eq_dec (Qfloor x) (Qfloor y)) as [E|NE].
  - rewrite <- E in *.
    destruct (Qcompare_spec (x - inject_Z (Qfloor x)) (1 # 2)) as [Cx|Cx|Cx];
      destruct (Qcompare_spec (y - inject_Z (Qfloor x)) (1 # 2)) as [Cy|Cy|Cy];
      try lia; try (exfalso; lra); destruct (Z.even (Qfloor x)); lia.
  - destruct (Qcompare (x - inject_Z (Qfloor x)) (1 # 2));
      destruct (Qcompare (y - inject_Z (Qfloor y)) (1 # 2));
      destruct (Z.even (Qfloor x)); destruct (Z.even (Qfloor y)); lia.
Qed.

Lemma round_mono (x y : Q) (n : nat) : x <= y -> Py.round x n <= Py.round y n.
Proof.
  intros Hxy. unfold Py.round, Qle. simpl.
  apply Z.mul_le_mono_nonneg_r; [lia|].
  apply round_half_even_mono.
  apply Qmult_le_compat_r; [exact Hxy|]. unfold Qle. simpl. lia.
Qed.

Lemma round_half_even_near (x : Q) :
  x - (1 # 2) <= inject_Z (Py.round_half_even x) <= x + (1 # 2).
Proof.
  pose proof (Qfloor_le x) as H1. pose proof (Qlt_floor x) as H2.
  rewrite inject_Z_plus in H2. change (inject_Z 1) with 1 in H2.
  unfold Py.round_half_even.
  destruct (Qcompare_spec (x - inject_Z (Qfloor x)) (1 # 2)) as [C|C|C];
    [destruct (Z.even (Qfloor x))| |];
    rewrite ?inject_Z_plus; change (inject_Z 1) with 1; split; lra.
Qed.

(** Rounding to two decimals moves a number by at most 0.005 and gives a
    multiple of 0.01. *)
Lemma round2_near (x : Q) :
  x - (1 # 200) <= Py.round x 2 <= x + (1 # 200) /\
  exists k : Z, Py.round x 2 = k # 100.
Proof.
  split; [|eexists; reflexivity].
  pose proof (round_half_even_near (x * inject_Z 100)) as H.
  change (Py.round x 2) with (Py.round_half_even (x * inject_Z 100) # 100).
  set (k := Py.round_half_even (x * inject_Z 100)) in *.
  assert (E : k # 100 == inject_Z k * (1 # 100)).
  { unfold Qeq. simpl. lia. }
  rewrite E. change (inject_Z 100) with 100 in H. split; lra.
Qed.

Lemma sum_nonneg (l : list Q) : Forall nonneg l -> 0 <= Py.sum l.
Proof.
  unfold Py.sum. induction 1 as [|x l Hx _ IH]; simpl.
  - lra.
  - rewrite fold_plus_acc. unfold nonneg in Hx. lra.
Qed.

Lemma Forall_skipn {A : Type} (P : A -> Prop) (n : nat) (l : list A) :
  Forall P l -> Forall P (skipn n l).
Proof.
  intros H. rewrite <- (firstn_skipn n l) in H.
  now apply Forall_app in H.
Qed.

Lemma sum_skipn_le (l : list Q) (n : nat) :
  Forall nonneg l -> Py.sum (skipn n l) <= Py.sum l.
Proof.
  intros H. rewrite <- (firstn_skipn n l) at 2. rewrite sum_app.
  assert (0 <= Py.sum (firstn n l)).
  { apply sum_nonneg. rewrite <- (firstn_skipn n l) in H.
    now apply Forall_app in H. }
  lra.
Qed.

Lemma last_entries_short {A : Type} (l : list A) (h : nat) :
  (List.length l <= h)%nat -> last_entries h l = l.
Proof.
  intros H. unfold last_entries.
  replace (List.length l - h)%nat with 0%nat by lia. reflexivity.
Qed.

(** For a window of at least one hour the two branches of [compute_rolling]
    agree on one reading: the rounded sum of the last [hours] entries, or of
    all entries when there are fewer. *)
Lemma compute_rolling_last (v : list Q) (h : Z) :
  (1 <= h)%Z ->
  compute_rolling v h == Py.round (Py.sum (last_entries (Z.to_nat h) v)) 2.
Proof.
  intros Hh. destruct v as [|x v]; [reflexivity|].
  rewrite compute_rolling_nonempty by discriminate.
  destruct (Py.len (x :: v) <? h)%Z eqn:E.
  - apply Z.ltb_lt in E. unfold Py.len in E.
    rewrite last_entries_short by lia. reflexivity.
  - apply Z.ltb_ge in E. rewrite slice_from_last by lia. reflexivity.
Qed.

(** X1.  With a window of [h >= 1] hours and at least [h] entries, only the
    last [h] entries count: whatever history precedes them does not change
    the rolling sum. *)
Theorem compute_rolling_ignores_older (older recent : list Q) (h : Z) :
  (1 <= h)%Z -> Py.len recent = h ->
  compute_rolling (older ++ recent) h = compute_rolling recent h /\
  compute_rolling recent h = Py.round (Py.sum recent) 2.
Proof.
  intros Hh Hlen. unfold Py.len in Hlen.
  assert (Hne : recent <> []) by (intros ->; simpl in Hlen; lia).
  assert (Hr : compute_rolling recent h = Py.round (Py.sum recent) 2).
  { rewrite compute_rolling_nonempty by exact Hne.
    destruct (Py.len recent <? h)%Z eqn:E;
      [apply Z.ltb_lt in E; unfold Py.len in E; lia|].
    rewrite slice_from_last by (unfold Py.len; lia).
    rewrite last_entries_short by lia. reflexivity. }
  split; [|exact Hr]. rewrite Hr.
  rewrite compute_rolling_nonempty by (destruct older; [exact Hne | discriminate]).
  destruct (Py.len (older ++ recent) <? h)%Z eqn:E;
    [apply Z.ltb_lt in E; unfold Py.len in E; rewrite length_app in E; lia|].
  rewrite slice_from_last by (unfold Py.len; rewrite length_app; lia).
  unfold last_entries. rewrite length_app, skipn_app.
  replace (List.length older + List.length recent - Z.to_nat h)%nat
    with (List.length older) by lia.
  rewrite skipn_all, Nat.sub_diag. reflexivity.
Qed.

Lemma compute_rolling_ignores_older_witness :
  compute_rolling ([7; 9.5] ++ [1; 2; 3]) 3 = compute_rolling [1; 2; 3] 3.
Proof.
  apply (compute_rolling_ignores_older [7; 9.5] [1; 2; 3] 3); [lia | reflexivity].
Defined.

(** X2.  A history no longer than the smaller of two windows has one rolling
    sum for both: with at most 24 hourly entries the 24-hour and the 72-hour
    figures coincide. *)
Theorem compute_rolling_short_history (v : list Q) (h1 h2 : Z) :
  (Py.len v <= h1)%Z -> (h1 <= h2)%Z ->
  compute_rolling v h1 = compute_rolling v h2 /\
  (v <> [] -> compute_rolling v h2 = Py.round (Py.sum v) 2).
Proof.
  intros H1 H2. destruct v as [|x v]; [split; [reflexivity | congruence]|].
  assert (Hall : forall h, (Py.len (x :: v) <= h)%Z ->
            compute_rolling (x :: v) h = Py.round (Py.sum (x :: v)) 2).
  { intros h Hh. rewrite compute_rolling_nonempty by discriminate.
    destruct (Py.len (x :: v) <? h)%Z eqn:E; [reflexivity|].
    apply Z.ltb_ge in E. unfold Py.len in *. simpl List.length in *.
    rewrite slice_from_last by (unfold Py.len; simpl List.length; lia).
    rewrite last_entries_short by (simpl List.length; lia). reflexivity. }
  split; [|intros _; apply Hall; lia].
  rewrite !Hall by lia. reflexivity.
Qed.

Lemma compute_rolling_short_history_witness :
  compute_rolling [0.5; 1.25; 3] 24 = compute_rolling [0.5; 1.25; 3] 72.
Proof.
  assert (H1 : (Py.len [0.5; 1.25; 3]%Q <= 24)%Z) by (unfold Py.len; simpl; lia).
  assert (H2 : (24 <= 72)%Z) by lia.
  exact (proj1 (compute_rolling_short_history [0.5; 1.25; 3] 24 72 H1 H2)).
Defined.



(** X4.  When no precipitation value is negative, a rolling sum is not
    negative and a wider window never gives a smaller one: the 72-hour
    figure is at least the 24-hour figure. *)
Theorem compute_rolling_wider_window (v : list Q) (h1 h2 : Z) :
  Forall nonneg v -> (1 <= h1)%Z -> (h1 <= h2)%Z ->
  0 <= compute_rolling v h1 /\ compute_rolling v h1 <= compute_rolling v h2.
Proof.
  intros Hv H1 H2.
  rewrite (compute_rolling_last v h1), (compute_rolling_last v h2) by lia.
  split.
  - apply Qle_trans with (Py.round 0 2); [discriminate|]. apply round_mono.
    apply sum_nonneg. unfold last_entries. now apply Forall_skipn.
  - apply round_mono. unfold last_entries.
    set (n := List.length v).
    replace (n - Z.to_nat h1)%nat
      with ((n - Z.to_nat h1 - (n - Z.to_nat h2)) + (n - Z.to_nat h2))%nat by lia.
    rewrite <- skipn_skipn. apply sum_skipn_le. now apply Forall_skipn.
Qed.

Lemma compute_rolling_wider_window_witness :
  0 <= compute_rolling [4; 0; 2.5; 1] 2 /\
  compute_rolling [4; 0; 2.5; 1] 2 <= compute_rolling [4; 0; 2.5; 1] 3.
Proof.
  apply (compute_rolling_wider_window [4; 0; 2.5; 1] 2 3); [|lia|lia].
  repeat constructor; unfold nonneg; lra.
Defined.

(** ** More on the risk classifier *)

(** The level read off the readings of a window: [d] is the value used for
    an empty window, below both thresholds. *)
Lemma classify_window (l : list Q) (d high medium m : Q) :
  d < medium -> medium <= high ->
  (if Py.truthy l then Py.max l else Ok d) = Ok m ->
  (classify m high medium = "High"%string <-> exists x, In x l /\ high <= x) /\
  (classify m high medium = "Medium"%string <->
     (exists x, In x l /\ medium <= x) /\ (forall x, In x l -> x < high)) /\
  (classify m high medium = "Low"%string <-> forall x, In x l -> x < medium).
Proof.
  intros Hd Hmh Em.
  destruct (classify_spec m high medium Hmh) as (SH & SM & SL).
  rewrite SH, SM, SL. clear SH SM SL.
  destruct l as [|a l].
  - simpl in Em. injection Em as <-.
    split; [|split]; split.
    + intros H. lra.
    + intros (x & [] & _).
    + intros H. lra.
    + intros [(x & [] & _) _].
    + intros _ x [].
    + intros _. exact Hd.
  - destruct (max_is_maximum (a :: l)) as (m' & E & (x & Hx & Ex) & Ub);
      [discriminate|].
    simpl Py.truthy in Em. cbv iota in Em. rewrite E in Em. injection Em as ->.
    split; [|split]; split.
    + intros H. exists x. split; [exact Hx | lra].
    + intros (y & Hy & Hhy). pose proof (Ub y Hy). lra.
    + intros [H1 H2]. split; [exists x; split; [exact Hx | lra]|].
      intros y Hy. pose proof (Ub y Hy). lra.
    + intros [(y & Hy & Hmy) Hall]. pose proof (Ub y Hy). pose proof (Hall x Hx).
      split; lra.
    + intros H y Hy. pose proof (Ub y Hy). lra.
    + intros Hall. pose proof (Hall x Hx). lra.
Qed.


Lemma level_of_classify (x high medium : Q) :
  exists l, level_of_string (classify x high medium) = Some l /\
            (l = High <-> classify x high medium = "High"%string) /\
            (l = Low <-> classify x high medium = "Low"%string).
Proof.
  unfold classify.
  destruct (Py.ge x high); [|destruct (Py.ge x medium)];
    eexists; (split; [reflexivity|]); split; split; intros; congruence.
Qed.

(** The level of a window's readings does not fall when readings are added
    and does not change when they are reordered. *)
Lemma classify_window_incl (l l' : list Q) (d high medium m m' : Q) :
  d < medium -> medium <= high ->
  (if Py.truthy l then Py.max l else Ok d) = Ok m ->
  (if Py.truthy l' then Py.max l' else Ok d) = Ok m' ->
  incl l l' ->
  exists a b, level_of_string (classify m high medium) = Some a /\
              level_of_string (classify m' high medium) = Some b /\
              level_le a b.
Proof.
  intros Hd Hmh Em Em' Hincl.
  destruct (classify_window l d high medium m Hd Hmh Em) as (H1 & H2 & H3).
  destruct (classify_window l' d high medium m' Hd Hmh Em') as (H1' & H2' & H3').
  destruct (level_of_classify m high medium) as (a & Ea & EaH & EaL).
  destruct (level_of_classify m' high medium) as (b & Eb & EbH & EbL).
  exists a, b. split; [exact Ea|]. split; [exact Eb|]. unfold level_le.
  destruct a; [simpl; lia | |].
  - (* Medium: the larger window is not Low *)
    destruct b; simpl; try lia. exfalso.
    assert (Hm : classify m high medium = "Medium"%string).
    { destruct (classify_level m high medium) as [L|[M|H]]; [|exact M|].
      - apply EaL in L. discriminate.
      - apply EaH in H. discriminate. }
    apply H2 in Hm. destruct Hm as [(x & Hx & Hmx) _].
    pose proof (proj1 H3' (proj1 EbL eq_refl) x (Hincl x Hx)). lra.
  - (* High: the larger window is High *)
    assert (Hh : classify m' high medium = "High"%string).
    { apply H1'. destruct (proj1 H1 (proj1 EaH eq_refl)) as (x & Hx & Hhx).
      exists x. split; [now apply Hincl | exact Hhx]. }
    apply EbH in Hh. subst b. simpl. lia.
Qed.

(** X6.  Adding readings to the temperature or the wind window never lowers
    the heat or the storm level. *)
Theorem levels_grow_with_window (rolling_24 : Q) (temps winds more_temps more_winds : list Q) :
  exists h h' s s',
    heat_level rolling_24 temps winds = Ok h /\
    heat_level rolling_24 (temps ++ more_temps) (winds ++ more_winds) = Ok h' /\
    storm_level rolling_24 temps winds = Ok s /\
    storm_level rolling_24 (temps ++ more_temps) (winds ++ more_winds) = Ok s' /\
    exists lh lh' ls ls',
      level_of_string h = Some lh /\ level_of_string h' = Some lh' /\
      level_of_string s = Some ls /\ level_of_string s' = Some ls' /\
      level_le lh lh' /\ level_le ls ls'.
Proof.
  destruct (summarize_risks_run rolling_24 temps winds) as (mt & mw & Et & Ew & E).
  destruct (summarize_risks_run rolling_24 (temps ++ more_temps) (winds ++ more_winds))
    as (mt' & mw' & Et' & Ew' & E').
  unfold heat_level, storm_level. rewrite E, E'. simpl.
  do 4 eexists. do 4 (split; [reflexivity|]).
  destruct (classify_window_incl temps (temps ++ more_temps) (-999) 40 35 mt mt')
    as (a & b & Ea & Eb & Hab); [lra | lra | exact Et | exact Et' | |].
  { intros x Hx. apply in_or_app. now left. }
  destruct (classify_window_incl winds (winds ++ more_winds) 0 15 8 mw mw')
    as (c & d & Ec & Ed & Hcd); [lra | lra | exact Ew | exact Ew' | |].
  { intros x Hx. apply in_or_app. now left. }
  exists a, b, c, d. repeat split; assumption.
Qed.



(** ** More on the advisory composer *)

(** X8.  The Hindi and Marathi clause lists always have the same number of
    clauses, never more than the English list, which has between one and
    three. *)
Theorem clause_counts (risks : RiskSummary) :
  let c := advisory_clauses risks in
  List.length (clauses_hi c) = List.length (clauses_mr c) /\
  (List.length (clauses_hi c) <= List.length (clauses_en c))%nat /\
  (1 <= List.length (clauses_en c) <= 3)%nat.
Proof.
  unfold advisory_clauses, flood_clauses, heat_clauses, storm_clauses.
  level_cases (flood risks); level_cases (heat risks); level_cases (storm risks);
    simpl; lia.
Qed.

(** X9.  The Hindi list is empty, and likewise the Marathi list, exactly
    when flood is neither High nor Medium, heat is neither High nor Medium
    and storm is not High; in that case both advisories are the English
    advisory. *)
Theorem fallback_condition (risks : RiskSummary) :
  let c := advisory_clauses risks in
  let a := build_bilingual_advisories risks in
  let localized :=
    flood risks = "High"%string \/ flood risks = "Medium"%string \/
    heat risks = "High"%string \/ heat risks = "Medium"%string \/
    storm risks = "High"%string in
  (clauses_hi c = [] <-> ~ localized) /\
  (clauses_mr c = [] <-> ~ localized) /\
  (~ localized -> advisory_hi a = advisory_en a /\ advisory_mr a = advisory_en a).
Proof.
  intros c a localized.
  assert (H : (clauses_hi c = [] <-> ~ localized) /\ (clauses_mr c = [] <-> ~ localized)).
  { subst c localized.
    unfold advisory_clauses, flood_clauses, heat_clauses, storm_clauses.
    destruct (String.eqb_spec (flood risks) "High") as [Ef|Ef];
      [|destruct (String.eqb_spec (flood risks) "Medium") as [Ef'|Ef']];
      (destruct (String.eqb_spec (heat risks) "High") as [Eh|Eh];
        [|destruct (String.eqb_spec (heat risks) "Medium") as [Eh'|Eh']]);
      (destruct (String.eqb_spec (storm risks) "High") as [Es|Es];
        [|destruct (String.eqb_spec (storm risks) "Medium") as [Es'|Es']]);
      simpl; (split; split; intros; try discriminate; tauto). }
  destruct H as [Hhi Hmr]. split; [exact Hhi|]. split; [exact Hmr|].
  intros Hn. subst a. unfold build_bilingual_advisories, assemble. fold c. simpl.
  rewrite (proj2 Hhi Hn), (proj2 Hmr Hn). split; reflexivity.
Qed.

Lemma fallback_condition_witness :
  let a := build_bilingual_advisories
             {| flood := "Low"; heat := "Low"; storm := "Medium";
                max_temp := 21; max_wind := 9 |} in
  advisory_hi a = advisory_en a /\ advisory_mr a = advisory_en a.
Proof.
  apply (fallback_condition
           {| flood := "Low"; heat := "Low"; storm := "Medium";
              max_temp := 21; max_wind := 9 |}).
  simpl. intros [H|[H|[H|[H|H]]]]; discriminate.
Defined.

(** X10.  In calm conditions, when no level is High or Medium (any other
    string counts as well), all three advisories are the one English
    sentence "Flood risk is low — normal conditions.". *)
Theorem calm_advisory (risks : RiskSummary) :
  flood risks <> "High"%string -> flood risks <> "Medium"%string ->
  heat risks <> "High"%string -> heat risks <> "Medium"%string ->
  storm risks <> "High"%string -> storm risks <> "Medium"%string ->
  let a := build_bilingual_advisories risks in
  advisory_en a = "Flood risk is low — normal conditions."%string /\
  advisory_hi a = "Flood risk is low — normal conditions."%string /\
  advisory_mr a = "Flood risk is low — normal conditions."%string.
Proof.
  intros F1 F2 H1 H2 S1 S2 a. subst a.
  unfold build_bilingual_advisories, advisory_clauses,
    flood_clauses, heat_clauses, storm_clauses.
  apply String.eqb_neq in F1, F2, H1, H2, S1, S2.
  rewrite F1, F2, H1, H2, S1, S2. repeat split.
Qed.

Lemma calm_advisory_witness :
  advisory_hi (build_bilingual_advisories
                 {| flood := "Low"; heat := "Low"; storm := "Low";
                    max_temp := 21; max_wind := 2 |})
  = "Flood risk is low — normal conditions."%string.
Proof.
  apply (calm_advisory {| flood := "Low"; heat := "Low"; storm := "Low";
                          max_temp := 21; max_wind := 2 |}); discriminate.
Defined.

(** ** More on the orchestrator and the endpoints *)

(** The 24-hour window taken by [get_full_forecast] is the last 24 entries,
    or all entries when there are fewer. *)
Lemma window_24 (l : list Q) :
  (if (24 <=? Py.len l)%Z then Py.slice_from l (-24) else l) = last_entries 24 l.
Proof.
  destruct (24 <=? Py.len l)%Z eqn:E.
  - apply Z.leb_le in E. change (-24)%Z with (- (24))%Z.
    rewrite slice_from_last by lia. reflexivity.
  - apply Z.leb_gt in E. unfold Py.len in E.
    rewrite last_entries_short by lia. reflexivity.
Qed.

(** What a successful [get_full_forecast] is made of. *)
Lemma get_full_forecast_run
    (geocoding_api : string -> GeoResponse)
    (forecast_api : Q -> Q -> WeatherResponse)
    (pstdev : list Q -> Q) (city : string) (p : ForecastPayload) :
  get_full_forecast geocoding_api forecast_api pstdev city = Ok p <->
  exists res rest hourly rs,
    geocoding_api city = {| geo_status_code := 200; geo_results := res :: rest |} /\
    forecast_api (res_latitude res) (res_longitude res) =
      {| w_status_code := 200; w_hourly := hourly |} /\
    summarize_risks (compute_rolling (h_precipitation hourly) 24)
      (last_entries 24 (h_temperature_2m hourly))
      (last_entries 24 (h_windspeed_10m hourly)) = Ok rs /\
    p = {| location := (res_name res ++ ", " ++ res_country res)%string;
           p_lat := res_latitude res; p_lon := res_longitude res;
           times := h_time hourly;
           temperature := h_temperature_2m hourly;
           precip := h_precipitation hourly;
           humidity := h_relativehumidity_2m hourly;
           wind := h_windspeed_10m hourly;
           rolling_24 := compute_rolling (h_precipitation hourly) 24;
           rolling_72 := compute_rolling (h_precipitation hourly) 72;
           precip_std := Py.round (compute_std pstdev (h_precipitation hourly)) 2;
           risk := rs;
           p_advisory_en := advisory_en (build_bilingual_advisories rs);
           p_advisory_hi := advisory_hi (build_bilingual_advisories rs);
           p_advisory_mr := advisory_mr (build_bilingual_advisories rs) |}.
Proof.
  unfold get_full_forecast, geocode_city, fetch_weather.
  destruct (geocoding_api city) as [st results] eqn:Eg. simpl.
  destruct (Z.eqb_spec st 200) as [->|Hst]; simpl.
  2:{ split; [discriminate|]. intros (res & rest & h & rs & E & _). congruence. }
  destruct results as [|res rest]; simpl.
  { split; [discriminate|]. intros (res & rest & h & rs & E & _). congruence. }
  destruct (forecast_api (res_latitude res) (res_longitude res)) as [ws hourly] eqn:Ef.
  simpl. destruct (Z.eqb_spec ws 200) as [->|Hws]; simpl.
  2:{ split; [discriminate|].
      intros (res' & rest' & h & rs & E & E' & _).
      injection E as <- <-. rewrite Ef in E'. congruence. }
  rewrite !window_24.
  destruct (summarize_risks _ _ _) as [rs|e] eqn:Er; simpl.
  - split.
    + intros [= <-]. exists res, rest, hourly, rs. repeat split; assumption.
    + intros (res' & rest' & h & rs' & E & E' & Er' & ->).
      injection E as <- <-. rewrite Ef in E'. injection E' as <-.
      rewrite Er in Er'. injection Er' as <-. reflexivity.
  - split; [discriminate|].
    intros (res' & rest' & h & rs' & E & E' & Er' & _).
    injection E as <- <-. rewrite Ef in E'. injection E' as <-.
    rewrite Er in Er'. discriminate.
Qed.



(** X12.  A payload is consistent with itself: its two rolling sums are those
    of its [precip] array, its risk summary is the classification of its own
    [rolling_24] and of the last 24 entries of its [temperature] and [wind]
    arrays, and its advisories are those of its own risk summary.  So the
    flood level shown is High exactly when the [rolling_24] shown is at
    least 50, and Low exactly when it is below 30. *)
Theorem payload_consistent
    (geocoding_api : string -> GeoResponse)
    (forecast_api : Q -> Q -> WeatherResponse)
    (pstdev : list Q -> Q) (city : string) (p : ForecastPayload) :
  get_full_forecast geocoding_api forecast_api pstdev city = Ok p ->
  rolling_24 p = compute_rolling (precip p) 24 /\
  rolling_72 p = compute_rolling (precip p) 72 /\
  summarize_risks (rolling_24 p) (last_entries 24 (temperature p))
    (last_entries 24 (wind p)) = Ok (risk p) /\
  (flood (risk p) = "High"%string <-> 50 <= rolling_24 p) /\
  (flood (risk p) = "Low"%string <-> rolling_24 p < 30) /\
  p_advisory_en p = advisory_en (build_bilingual_advisories (risk p)) /\
  p_advisory_hi p = advisory_hi (build_bilingual_advisories (risk p)) /\
  p_advisory_mr p = advisory_mr (build_bilingual_advisories (risk p)).
Proof.
  intros Hp. apply get_full_forecast_run in Hp.
  destruct Hp as (res & rest & h & rs & _ & _ & Er & ->). simpl.
  split; [reflexivity|]. split; [reflexivity|]. split; [exact Er|].
  pose proof (flood_level_run (compute_rolling (h_precipitation h) 24)
                (last_entries 24 (h_temperature_2m h))
                (last_entries 24 (h_windspeed_10m h))) as Ef.
  unfold flood_level in Ef. rewrite Er in Ef. simpl in Ef. injection Ef as Ef.
  destruct (classify_spec (compute_rolling (h_precipitation h) 24) 50 30)
    as (H1 & _ & H3); [lra|].
  rewrite Ef. split; [exact H1|]. split; [exact H3|]. repeat split.
Qed.

Lemma payload_consistent_witness :
  exists p,
    get_full_forecast demo_geocoding_api demo_forecast_api demo_pstdev "Pune" = Ok p /\
    rolling_24 p = compute_rolling (precip p) 24 /\
    (flood (risk p) = "High"%string <-> 50 <= rolling_24 p).
Proof.
  eexists. split; [reflexivity|].
  split; eapply (payload_consistent demo_geocoding_api demo_forecast_api
                   demo_pstdev "Pune"); reflexivity.
Defined.

(** X13.  The outcome of [get_full_forecast] depends on the providers only
    through the geocoder's status and first match and, when these are 200
    and a match, the forecast answer for that match's coordinates: further
    matches are never looked at, and after a failed geocoding the forecast
    provider's answer does not matter. *)
Theorem get_full_forecast_depends_on
    (geocoding_api geocoding_api' : string -> GeoResponse)
    (forecast_api forecast_api' : Q -> Q -> WeatherResponse)
    (pstdev : list Q -> Q) (city : string) :
  geo_status_code (geocoding_api city) = geo_status_code (geocoding_api' city) ->
  hd_error (geo_results (geocoding_api city))
    = hd_error (geo_results (geocoding_api' city)) ->
  (forall res,
     geo_status_code (geocoding_api city) = 200%Z ->
     hd_error (geo_results (geocoding_api city)) = Some res ->
     forecast_api (res_latitude res) (res_longitude res)
       = forecast_api' (res_latitude res) (res_longitude res)) ->
  get_full_forecast geocoding_api forecast_api pstdev city
    = get_full_forecast geocoding_api' forecast_api' pstdev city.
Proof.
  intros Hs Hh Hf. unfold get_full_forecast, geocode_city, fetch_weather.
  destruct (geocoding_api city) as [st results].
  destruct (geocoding_api' city) as [st' results'].
  simpl in *. subst st'.
  destruct (Z.eqb_spec st 200) as [->|Hst]; simpl; [|reflexivity].
  destruct results as [|res rest], results' as [|res' rest'];
    simpl in Hh; try discriminate; [reflexivity|].
  injection Hh as <-. simpl.
  rewrite (Hf res eq_refl eq_refl). reflexivity.
Qed.

Lemma get_full_forecast_depends_on_witness :
  get_full_forecast
    (fun _ => {| geo_status_code := 503; geo_results := [] |})
    demo_forecast_api demo_pstdev "Pune"
  = get_full_forecast
      (fun _ => {| geo_status_code := 503; geo_results := [] |})
      demo_empty_forecast_api demo_pstdev "Pune".
Proof.
  apply get_full_forecast_depends_on; [reflexivity | reflexivity|].
  simpl. intros res H. discriminate.
Defined.

(** X14.  With a forecast that has no hourly data, [get_full_forecast] still
    answers: both rolling sums are 0.0, the deviation is 0.0, the three
    levels are Low and every advisory is the English "normal conditions"
    sentence. *)
Theorem empty_forecast
    (geocoding_api : string -> GeoResponse)
    (forecast_api : Q -> Q -> WeatherResponse)
    (pstdev : list Q -> Q) (city : string) (res : GeoResult) (rest : list GeoResult)
    (hourly : Hourly) :
  geocoding_api city = {| geo_status_code := 200; geo_results := res :: rest |} ->
  forecast_api (res_latitude res) (res_longitude res) =
    {| w_status_code := 200; w_hourly := hourly |} ->
  h_temperature_2m hourly = [] -> h_precipitation hourly = [] ->
  h_windspeed_10m hourly = [] ->
  exists p,
    get_full_forecast geocoding_api forecast_api pstdev city = Ok p /\
    rolling_24 p = 0 /\ rolling_72 p = 0 /\ precip_std p == 0 /\
    flood (risk p) = "Low"%string /\ heat (risk p) = "Low"%string /\
    storm (risk p) = "Low"%string /\
    p_advisory_en p = "Flood risk is low — normal conditions."%string /\
    p_advisory_hi p = p_advisory_en p /\ p_advisory_mr p = p_advisory_en p.
Proof.
  intros Eg Ef Et Ep Ew.
  eexists. split.
  - apply get_full_forecast_run. exists res, rest, hourly. eexists.
    split; [exact Eg|]. split; [exact Ef|]. rewrite Et, Ep, Ew.
    split; reflexivity.
  - simpl. repeat split.
Qed.

Lemma empty_forecast_witness :
  exists p,
    get_full_forecast demo_geocoding_api demo_empty_forecast_api demo_pstdev "Pune"
      = Ok p /\
    rolling_24 p = 0 /\ rolling_72 p = 0 /\ precip_std p == 0 /\
    flood (risk p) = "Low"%string /\ heat (risk p) = "Low"%string /\
    storm (risk p) = "Low"%string /\
    p_advisory_en p = "Flood risk is low — normal conditions."%string /\
    p_advisory_hi p = p_advisory_en p /\ p_advisory_mr p = p_advisory_en p.
Proof.
  apply (empty_forecast demo_geocoding_api demo_empty_forecast_api demo_pstdev
           "Pune" demo_location [] (w_hourly (demo_empty_forecast_api 0 0)));
    reflexivity.
Defined.

(** The exceptions [get_full_forecast] can raise. *)
Lemma get_full_forecast_raises
    (geocoding_api : string -> GeoResponse)
    (forecast_api : Q -> Q -> WeatherResponse)
    (pstdev : list Q -> Q) (city : string) (e : exn) :
  get_full_forecast geocoding_api forecast_api pstdev city = Raise e ->
  (e = HTTPException 502 "Geocoding API error" /\
   geo_status_code (geocoding_api city) <> 200%Z) \/
  (e = HTTPException 404 "Location not found" /\
   geo_status_code (geocoding_api city) = 200%Z /\
   geo_results (geocoding_api city) = []) \/
  (e = HTTPException 502 "Forecast API error" /\
   geo_status_code (geocoding_api city) = 200%Z /\
   exists res rest,
     geo_results (geocoding_api city) = res :: rest /\
     w_status_code (forecast_api (res_latitude res) (res_longitude res)) <> 200%Z).
Proof.
  unfold get_full_forecast, geocode_city, fetch_weather.
  destruct (geocoding_api city) as [st results]. simpl.
  destruct (Z.eqb_spec st 200) as [->|Hst]; simpl.
  2:{ intros [= <-]. left. split; [reflexivity | exact Hst]. }
  destruct results as [|res rest]; simpl.
  { intros [= <-]. right. left. repeat split. }
  destruct (forecast_api (res_latitude res) (res_longitude res)) as [ws hourly] eqn:Ef.
  simpl. destruct (Z.eqb_spec ws 200) as [->|Hws]; simpl.
  - match goal with
    | |- context [summarize_risks ?x ?t ?w] =>
        destruct (summarize_risks_run x t w) as (mt & mw & _ & _ & E)
    end.
    rewrite E. simpl. discriminate.
  - intros [= <-]. right. right. split; [reflexivity|]. split; [reflexivity|].
    exists res, rest. split; [reflexivity|]. rewrite Ef. exact Hws.
Qed.



Lemma make_DataFrame_aligned (p : ForecastPayload) :
  (aligned p ->
   make_DataFrame (times p) (temperature p) (precip p) (humidity p) (wind p)
   = Ok {| time := times p; temperature_C := temperature p; precip_mm := precip p;
           humidity_pct := humidity p; wind_m_s := wind p |}) /\
  (~ aligned p ->
   make_DataFrame (times p) (temperature p) (precip p) (humidity p) (wind p)
   = Raise (ValueError "All arrays must be of the same length")).
Proof.
  unfold make_DataFrame, aligned.
  destruct (Nat.eqb_spec (List.length (temperature p)) (List.length (times p)));
    destruct (Nat.eqb_spec (List.length (precip p)) (List.length (times p)));
    destruct (Nat.eqb_spec (List.length (humidity p)) (List.length (times p)));
    destruct (Nat.eqb_spec (List.length (wind p)) (List.length (times p)));
    simpl; split; intros; try reflexivity; tauto.
Qed.

(** X16.  [export_csv] raises what [get_full_forecast] raises.  When
    [get_full_forecast] returns a payload, [export_csv] returns its five
    hourly arrays as the columns of the file if they have one length, and
    otherwise fails with a 500: unlike [city_forecast], which answers 200
    for the same data, it cannot serve arrays of unequal length. *)
Theorem export_csv_outcome
    (geocoding_api : string -> GeoResponse)
    (forecast_api : Q -> Q -> WeatherResponse)
    (pstdev : list Q -> Q) (city : string) :
  (forall e,
     get_full_forecast geocoding_api forecast_api pstdev city = Raise e ->
     export_csv geocoding_api forecast_api pstdev city = Raise e) /\
  (forall p,
     get_full_forecast geocoding_api forecast_api pstdev city = Ok p ->
     (aligned p ->
      export_csv geocoding_api forecast_api pstdev city =
        Ok {| content := {| time := times p; temperature_C := temperature p;
                            precip_mm := precip p; humidity_pct := humidity p;
                            wind_m_s := wind p |};
              filename := (Py.replace_char " " "_" city ++ "_weather.csv")%string |}) /\
     (~ aligned p ->
      http_status (export_csv geocoding_api forecast_api pstdev city) = 500%Z /\
      (city <> EmptyString ->
       http_status (city_forecast geocoding_api forecast_api pstdev city) = 200%Z))).
Proof.
  unfold export_csv, city_forecast. split.
  - intros e ->. reflexivity.
  - intros p ->. simpl.
    destruct (make_DataFrame_aligned p) as [Hok Hbad]. split.
    + intros Ha. rewrite (Hok Ha). reflexivity.
    + intros Ha. rewrite (Hbad Ha). split; [reflexivity|].
      intros Hc. destruct city; [congruence | reflexivity].
Qed.

Lemma export_csv_outcome_witness :
  http_status (export_csv demo_geocoding_api demo_ragged_forecast_api demo_pstdev "Pune")
    = 500%Z /\
  http_status (city_forecast demo_geocoding_api demo_ragged_forecast_api demo_pstdev "Pune")
    = 200%Z.
Proof.
  destruct (export_csv_outcome demo_geocoding_api demo_ragged_forecast_api
              demo_pstdev "Pune") as [_ H].
  destruct (get_full_forecast demo_geocoding_api demo_ragged_forecast_api
              demo_pstdev "Pune") as [p|e] eqn:E; [|discriminate E].
  destruct (H p eq_refl) as [_ Hbad].
  assert (Hna : ~ aligned p).
  { injection E as <-. unfold aligned. simpl. intros (_ & Hp & _). discriminate. }
  destruct (Hbad Hna) as [H500 H200]. split; [exact H500|].
  apply H200. discriminate.
Defined.

(** ** The dashboard against the backend *)



(** X18.  Every key the dashboard reads from a payload is a key the backend
    writes, so no default is shown: the header is the payload's location,
    the two metrics are its rolling sums, and the risk line carries its
    three levels. *)
Theorem dashboard_reads_payload (py_str : Json -> string) (p : ForecastPayload)
    (city : string) :
  let data := payload_members p in
  header data city = JStr (location p) /\
  metric data "rolling_24" = JNum (rolling_24 p) /\
  metric data "rolling_72" = JNum (rolling_72 p) /\
  risk_display py_str data =
    Some ("Flood: " ++ flood (risk p) ++ "  |  Heat: " ++ heat (risk p)
          ++ "  |  Storm: " ++ storm (risk p))%string.
Proof. repeat split. Qed.

(** X19.  For a payload of this backend the advisory banner is never empty,
    whatever the language selected: Hindi shows [advisory_hi], Marathi
    [advisory_mr], and any other selection the English advisory. *)
Theorem dashboard_advisory
    (geocoding_api : string -> GeoResponse)
    (forecast_api : Q -> Q -> WeatherResponse)
    (pstdev : list Q -> Q) (city lang : string) (p : ForecastPayload) :
  get_full_forecast geocoding_api forecast_api pstdev city = Ok p ->
  exists s,
    advisory (payload_members p) lang = JStr s /\
    s <> EmptyString /\
    (lang = "Hindi"%string -> s = p_advisory_hi p) /\
    (lang = "Marathi"%string -> s = p_advisory_mr p) /\
    (lang <> "Hindi"%string -> lang <> "Marathi"%string -> s = p_advisory_en p).
Proof.
  intros Hp. apply get_full_forecast_run in Hp.
  destruct Hp as (res & rest & h & rs & _ & _ & _ & ->).
  destruct (advisory_clauses_en rs) as (c & l & E & _).
  destruct (advisory_clauses_ok rs) as (Sen & Shi & Smr).
  assert (Hen : clauses_en (advisory_clauses rs) <> []) by (rewrite E; discriminate).
  unfold advisory. simpl.
  destruct (String.eqb_spec lang "Hindi") as [->|Hh];
    [|destruct (String.eqb_spec lang "Marathi") as [->|Hm]];
    simpl; eexists; (split; [reflexivity|]); (split; [|repeat split; congruence]).
  - now apply fallback_nonempty.
  - now apply fallback_nonempty.
  - now apply join_nonempty.
Qed.

Lemma dashboard_advisory_witness :
  exists p s,
    get_full_forecast demo_geocoding_api demo_forecast_api demo_pstdev "Pune" = Ok p /\
    advisory (payload_members p) "Marathi" = JStr s /\ s <> EmptyString.
Proof.
  eexists.
  destruct (dashboard_advisory demo_geocoding_api demo_forecast_api demo_pstdev
              "Pune" "Marathi" _ eq_refl) as (s & E & Hs & _).
  exists s. split; [reflexivity|]. split; [exact E | exact Hs].
Defined.

Lemma replace_char_spec (a b c : ascii) (s : string) :
  In c (list_ascii_of_string (Py.replace_char a b s)) ->
  c = b \/ (c <> a /\ In c (list_ascii_of_string s)).
Proof.
  induction s as [|x s IH]; simpl; [intros []|].
  intros [<-|H].
  - destruct (Ascii.eqb_spec x a) as [->|Hx]; [now left | right; split; auto].
  - destruct (IH H) as [->|[Hc Hin]]; [now left | right; split; auto].
Qed.

Lemma list_ascii_app (s t : string) :
  list_ascii_of_string (s ++ t) = list_ascii_of_string s ++ list_ascii_of_string t.
Proof. induction s as [|x s IH]; simpl; [reflexivity | now rewrite IH]. Qed.

Lemma length_append (s t : string) :
  String.length (s ++ t) = (String.length s + String.length t)%nat.
Proof. induction s as [|x s IH]; simpl; [reflexivity | now rewrite IH]. Qed.

Lemma replace_char_length (a b : ascii) (s : string) :
  String.length (Py.replace_char a b s) = String.length s.
Proof. induction s as [|x s IH]; simpl; [reflexivity | now rewrite IH]. Qed.

(** X20.  The name of the CSV file never contains a space, is 12 characters
    longer than the city, and is the same whether the file comes from the
    backend's [export_csv] or from the dashboard's download button. *)
Theorem csv_file_name
    (geocoding_api : string -> GeoResponse)
    (forecast_api : Q -> Q -> WeatherResponse)
    (pstdev : list Q -> Q) (city : string) :
  ~ In " "%char (list_ascii_of_string (file_name city)) /\
  String.length (file_name city) = (String.length city + 12)%nat /\
  (forall f, export_csv geocoding_api forecast_api pstdev city = Ok f ->
             filename f = file_name city).
Proof.
  unfold file_name. split; [|split].
  - rewrite list_ascii_app. intros H. apply in_app_or in H. destruct H as [H|H].
    + apply replace_char_spec in H. destruct H as [H|[H _]]; [discriminate | congruence].
    + simpl in H. repeat (destruct H as [H|H]; [discriminate|]). exact H.
  - rewrite length_append, replace_char_length. reflexivity.
  - unfold export_csv. intros f.
    destruct (get_full_forecast geocoding_api forecast_api pstdev city) as [p|e];
      [|discriminate]. simpl.
    destruct (make_DataFrame _ _ _ _ _); [|discriminate]. simpl.
    intros [= <-]. reflexivity.
Qed.

Lemma csv_file_name_witness :
  exists f,
    export_csv (fun _ => {| geo_status_code := 200; geo_results := [demo_location] |})
      demo_forecast_api demo_pstdev "Navi Mumbai East" = Ok f /\
    filename f = "Navi_Mumbai_East_weather.csv"%string.
Proof.
  eexists. split; [reflexivity|].
  destruct (csv_file_name
              (fun _ => {| geo_status_code := 200; geo_results := [demo_location] |})
              demo_forecast_api demo_pstdev "Navi Mumbai East") as (_ & _ & H).
  rewrite (H _ eq_refl). reflexivity.
Defined.

(** X21.  For a payload of this backend the dashboard puts the location on
    the map exactly when neither coordinate is 0: a place on the equator or
    on the prime meridian gets no map. *)
Theorem dashboard_map_point (float_of_string : string -> option Q) (p : ForecastPayload) :
  (p_lat p == 0 \/ p_lon p == 0 ->
   map_point float_of_string (payload_members p) = None) /\
  (~ p_lat p == 0 -> ~ p_lon p == 0 ->
   map_point float_of_string (payload_members p) = Some (p_lat p, p_lon p)).
Proof.
  unfold map_point. simpl.
  destruct (Qeq_bool (p_lat p) 0) eqn:Ela;
    [apply Qeq_bool_iff in Ela | apply Qeq_bool_neq in Ela];
    (destruct (Qeq_bool (p_lon p) 0) eqn:Elo;
       [apply Qeq_bool_iff in Elo | apply Qeq_bool_neq in Elo]);
    simpl; split; intros; try reflexivity; tauto.
Qed.

Lemma dashboard_map_point_witness :
  exists p,
    get_full_forecast
      (fun _ => {| geo_status_code := 200;
                   geo_results := [{| res_name := "Quito"; res_country := "Ecuador";
                                      res_latitude := 0; res_longitude := -78.5 |}] |})
      demo_forecast_api demo_pstdev "Quito" = Ok p /\
    map_point (fun _ => None) (payload_members p) = None.
Proof.
  eexists. split; [reflexivity|].
  apply (dashboard_map_point (fun _ => None)). left. reflexivity.
Defined.

(** ** The thresholds in binary64 *)

Module Binary64.
Import Floats.
Set Warnings "-inexact-float".

(** The Medium flood threshold is computed, [flood_threshold * 0.6].  In
    binary64 arithmetic this product is exactly 30.0, the number the
    rational model uses, and the literals 49.999, 29.999 and 34.999 denote
    numbers below 50, 30 and 35. *)
Remark thresholds_binary64 :
  PrimFloat.eqb (PrimFloat.mul 50%float 0.6%float) 30%float = true /\
  PrimFloat.ltb 49.999%float 50%float = true /\
  PrimFloat.ltb 29.999%float (PrimFloat.mul 50%float 0.6%float) = true /\
  PrimFloat.ltb 34.999%float 35%float = true.
Proof. repeat split. Qed.

Set Warnings "inexact-float".
End Binary64.
